(** * Physics RAG service (physics_rag_weaviate): retrieval engine and
    RAG orchestrator

    Shallow embedding of
    - [app/services/search_service.py]     ([WeaviateSearchService]),
    - [app/services/generation_service.py] ([GenerationService]),
    - [app/services/rag_service.py]        ([WeaviateRAGService]),
    - the [/initialize], [/chat], [/explain] and [/health] endpoints of
      [app/main.py].

    Python [str] values are sequences of code points and are modelled as
    [list N]; Python floats used as scores are modelled as rationals [Q]
    (no NaN, no rounding), and a score that may be [None] as [option Q].  External services (the Weaviate index, the
    embedding provider, the generation provider, the text file) are the
    fields of an [Env] record; the mutable state of one
    [WeaviateRAGService] instance together with the index contents and an
    event trace is threaded explicitly through a state-and-exception
    monad.  Wall-clock timing fields are not modelled. *)

From Stdlib Require Import List String Bool Arith Lia ZArith NArith QArith Qabs Qminmax Lqa.
Import ListNotations.

Open Scope string_scope.
Open Scope list_scope.

(** ** Python strings as code points *)

Definition pystr := list N.

(** [str.isspace] on a single code point. *)
Definition py_isspace (c : N) : bool :=
  ((9 <=? c) && (c <=? 13))%N || ((28 <=? c) && (c <=? 32))%N
  || (c =? 133)%N || (c =? 160)%N || (c =? 5760)%N
  || ((8192 <=? c) && (c <=? 8202))%N || (c =? 8232)%N || (c =? 8233)%N
  || (c =? 8239)%N || (c =? 8287)%N || (c =? 12288)%N.

Fixpoint lstrip (s : pystr) : pystr :=
  match s with
  | [] => []
  | c :: t => if py_isspace c then lstrip t else s
  end.

(** [str.strip()] *)
Definition py_strip (s : pystr) : pystr := rev (lstrip (rev (lstrip s))).

Fixpoint is_prefix (p s : pystr) : bool :=
  match p, s with
  | [], _ => true
  | a :: p', b :: s' => (a =? b)%N && is_prefix p' s'
  | _ :: _, [] => false
  end.

(** [s.split(sep)] for a non-empty separator: cut at the non-overlapping
    occurrences of [sep], scanning left to right.  [acc] holds the current
    piece reversed; every step consumes at least one code point, so
    [S (List.length s)] steps are enough (see [py_split]). *)
Fixpoint split_fuel (fuel : nat) (sep s acc : pystr) : list pystr :=
  match fuel with
  | O => [rev acc ++ s]
  | S fuel' =>
      if is_prefix sep s then rev acc :: split_fuel fuel' sep (skipn (List.length sep) s) []
      else match s with
           | [] => [rev acc]
           | c :: s' => split_fuel fuel' sep s' (c :: acc)
           end
  end.

Definition py_split (sep s : pystr) : list pystr :=
  split_fuel (S (List.length s)) sep s [].

Definition is_nonempty {A} (l : list A) : bool :=
  match l with [] => false | _ => true end.

Local Open Scope N_scope.

(** ["*****"], the chunk delimiter of the physics text. *)
Definition CHUNK_DELIMITER : pystr := [42; 42; 42; 42; 42].

(** ["..."] *)
Definition ELLIPSIS : pystr := [46; 46; 46].

(** "দুঃখিত, এই প্রশ্নের জন্য কোনো প্রাসঙ্গিক তথ্য পাওয়া যায়নি।"
    (no relevant information found). *)
Definition NO_INFO_TEXT : pystr :=
  [2470; 2497; 2435; 2454; 2495; 2468; 44; 32; 2447; 2439; 32; 2474; 2509;
   2480; 2486; 2509; 2472; 2503; 2480; 32; 2460; 2472; 2509; 2479; 32; 2453;
   2507; 2472; 2507; 32; 2474; 2509; 2480; 2494; 2488; 2457; 2509; 2455; 2495;
   2453; 32; 2468; 2469; 2509; 2479; 32; 2474; 2494; 2451; 2479; 2492; 2494;
   32; 2479; 2494; 2479; 2492; 2472; 2495; 2404].

(** "দুঃখিত, উত্তর তৈরি করতে সমস্যা হয়েছে। অনুগ্রহ করে আবার চেষ্টা করুন।"
    (returned by [generate_response] and by [chat]'s exception handler). *)
Definition APOLOGY_TEXT : pystr :=
  [2470; 2497; 2435; 2454; 2495; 2468; 44; 32; 2441; 2468; 2509; 2468; 2480;
   32; 2468; 2504; 2480; 2495; 32; 2453; 2480; 2468; 2503; 32; 2488; 2478;
   2488; 2509; 2479; 2494; 32; 2489; 2479; 2492; 2503; 2459; 2503; 2404; 32;
   2437; 2472; 2497; 2455; 2509; 2480; 2489; 32; 2453; 2480; 2503; 32; 2438;
   2476; 2494; 2480; 32; 2458; 2503; 2487; 2509; 2463; 2494; 32; 2453; 2480;
   2497; 2472; 2404].

(** "উত্তর তৈরি করতে সমস্যা হয়েছে।" ([generate_with_sources]' handler). *)
Definition SOURCES_ERROR_TEXT : pystr :=
  [2441; 2468; 2509; 2468; 2480; 32; 2468; 2504; 2480; 2495; 32; 2453; 2480;
   2468; 2503; 32; 2488; 2478; 2488; 2509; 2479; 2494; 32; 2489; 2479; 2492;
   2503; 2459; 2503; 2404].

Local Close Scope N_scope.

(** ** Python float helpers on [Q] *)

Definition Qltb (x y : Q) : bool := negb (Qle_bool y x).

(** Python's [min(a, b)] returns [a] unless [b < a]. *)
Definition py_min (a b : Q) : Q := if Qltb b a then b else a.

(** Python's [max(a, b)] returns [a] unless [b > a]. *)
Definition py_max (a b : Q) : Q := if Qltb a b then b else a.

(** ** Exceptions *)

Inductive err : Type :=
| RetrievalError   (* index query / connection failure *)
| ProviderError    (* embedding or generation upstream failure *)
| ValueError       (* [Invalid search_type], missing text file *)
| TypeError        (* [min(None, 1.0)] *)
| HTTPException.   (* raised by an endpoint handler *)

Definition exc (A : Type) : Type := (err + A)%type.

(** ** Index objects and search results *)

Definition vec := list Q.

(** A Python [float] or [None]. *)
Definition pyfloat := option Q.

(** Whether a value passes pydantic's [float] field check. *)
Definition is_float (v : pyfloat) : bool :=
  match v with Some _ => true | None => false end.

(** [obj.metadata]: the outer [None] when the attribute is absent
    ([hasattr] false); [Some v] when it is present with value [v].  The
    weaviate v4 client's [MetadataReturn] always has both attributes and
    leaves a metric that was not requested through [return_metadata] at
    [None]: that is [Some None] here. *)
Record metadata := mkMetadata {
  md_score : option pyfloat;
  md_distance : option pyfloat
}.

(** An object of [results.objects]; [None] for an absent property. *)
Record obj := mkObj {
  prop_text : option pystr;
  prop_doc_id : option Z;
  obj_metadata : metadata
}.

(** The result dict built by the search service. *)
Record result := mkResult {
  content : pystr;
  doc_id : Z;
  score : pyfloat;
  rank : nat;
  search_type : string
}.

Definition get_text (o : obj) : pystr :=
  match prop_text o with Some t => t | None => [] end.

Definition get_doc_id (o : obj) (i : nat) : Z :=
  match prop_doc_id o with Some d => d | None => Z.of_nat i end.

(** [for rank, obj in enumerate(results.objects): ...append(f(rank, obj))] *)
Fixpoint enumerate_map {A B} (f : nat -> A -> B) (i : nat) (l : list A) : list B :=
  match l with
  | [] => []
  | x :: t => f i x :: enumerate_map f (S i) t
  end.

(** Result formatting of [hybrid_search]:
    [getattr(obj.metadata, 'score', 0.0) if hasattr(obj.metadata, 'score') else 0.0]. *)
Definition hybrid_result (i : nat) (o : obj) : result :=
  {| content := get_text o;
     doc_id := get_doc_id o i;
     score := match md_score (obj_metadata o) with Some v => v | None => Some 0 end;
     rank := S i;
     search_type := "hybrid" |}.

(** Result formatting of [vector_search]:
    [getattr(obj.metadata, 'distance', 1.0) if hasattr(obj.metadata, 'distance') else 1.0]. *)
Definition vector_result (i : nat) (o : obj) : result :=
  {| content := get_text o;
     doc_id := get_doc_id o i;
     score := match md_distance (obj_metadata o) with Some v => v | None => Some 1 end;
     rank := S i;
     search_type := "vector" |}.

(** Result formatting of [keyword_search]:
    [getattr(obj.metadata, 'score', 0.0) if hasattr(obj.metadata, 'score') else 0.0]. *)
Definition keyword_result (i : nat) (o : obj) : result :=
  {| content := get_text o;
     doc_id := get_doc_id o i;
     score := match md_score (obj_metadata o) with Some v => v | None => Some 0 end;
     rank := S i;
     search_type := "keyword" |}.

(** ** External services and service state *)

(** A stored index object: [properties={"text": doc, "doc_id": i}, vector=emb]. *)
Definition doc := (pystr * Z * vec)%type.

(** How [reset_collection]'s [try] block ends: [delete] and
    [_setup_collection] both succeed; [exists] or [delete] raises (the
    collection is untouched); or [delete] succeeds and [_setup_collection]
    raises (the old documents are gone). *)
Inductive reset_result : Type :=
| ResetDone
| ResetDeleteFails
| ResetSetupFails.

(** The external world a [WeaviateRAGService] talks to.  The index queries
    receive the current collection contents.  The generation provider is a
    function of (query, context): the prompt it is sent is built
    deterministically from them by [create_physics_prompt]; [None] means
    [generate_content] (or [response.text]) raised. *)
Record Env := mkEnv {
  embed_query : pystr -> exc vec;                           (* get_query_embedding *)
  embed_batch : list pystr -> exc (list vec);               (* get_batch_embeddings *)
  query_hybrid : list doc -> pystr -> vec -> Q -> nat -> exc (list obj);
  query_near_vector : list doc -> vec -> nat -> exc (list obj);
  query_bm25 : list doc -> pystr -> nat -> exc (list obj);
  aggregate_ok : bool;      (* [aggregate.over_all()] succeeds with a [total_count] *)
  reset_outcome : reset_result;  (* how deleting / recreating the collection ends *)
  batch_insert_ok : bool;   (* the dynamic batch insertion succeeds *)
  physics_text : option pystr;  (* contents of PHYSICS_TEXT_PATH; [None]: unreadable *)
  generate_content : pystr -> pystr -> option pystr
}.

(** Observable side effects, in order. *)
Inductive event : Type :=
| EvInitCollection        (* [initialize_collection] entered *)
| EvReset                 (* collection deleted and recreated *)
| EvInsert (n : nat)      (* [n] documents inserted *)
| EvGenerate.             (* the generation gateway is invoked *)

(** [self._initialized], the collection contents, and the event trace. *)
Record svc := mkSvc {
  initialized : bool;
  docs : list doc;
  trace : list event
}.

(** ** A state-and-exception monad for the service methods *)

Definition M (A : Type) : Type := svc -> exc A * svc.

Definition ret {A} (x : A) : M A := fun s => (inr x, s).
Definition raise {A} (e : err) : M A := fun s => (inl e, s).
Definition bind {A B} (m : M A) (k : A -> M B) : M B :=
  fun s => match m s with
           | (inl e, s') => (inl e, s')
           | (inr x, s') => k x s'
           end.
(** [try: m except Exception as e: h(e)] *)
Definition try_except {A} (m : M A) (h : err -> M A) : M A :=
  fun s => match m s with
           | (inl e, s') => h e s'
           | (inr x, s') => (inr x, s')
           end.
Definition lift {A} (r : exc A) : M A := fun s => (r, s).
Definition gets {A} (f : svc -> A) : M A := fun s => (inr (f s), s).
Definition emit (ev : event) : M unit :=
  fun s => (inr tt, {| initialized := initialized s; docs := docs s;
                       trace := trace s ++ [ev] |}).
Definition set_docs (d : list doc) : M unit :=
  fun s => (inr tt, {| initialized := initialized s; docs := d; trace := trace s |}).
Definition set_initialized : M unit :=
  fun s => (inr tt, {| initialized := true; docs := docs s; trace := trace s |}).

Notation "x <- m ;; k" := (bind m (fun x => k))
  (at level 61, m at next level, right associativity).
Notation "m ;;; k" := (bind m (fun _ => k)) (at level 61, right associativity).

Definition DEFAULT_TOP_K : nat := 5.
Definition HYBRID_ALPHA : Q := 1 # 2.

Section Service.

Variable env : Env.

(** *** WeaviateSearchService *)

Definition hybrid_search (q : pystr) (v : vec) (alpha : Q) (limit : nat) : M (list result) :=
  d <- gets docs ;;
  objs <- lift (query_hybrid env d q v alpha limit) ;;
  ret (enumerate_map hybrid_result 0 objs).

Definition vector_search (v : vec) (limit : nat) : M (list result) :=
  d <- gets docs ;;
  objs <- lift (query_near_vector env d v limit) ;;
  ret (enumerate_map vector_result 0 objs).

Definition keyword_search (q : pystr) (limit : nat) : M (list result) :=
  d <- gets docs ;;
  objs <- lift (query_bm25 env d q limit) ;;
  ret (enumerate_map keyword_result 0 objs).

(** [get_collection_stats()['total_documents']]: 0 when the aggregate
    query raises or its result has no [total_count]. *)
Definition total_documents : M nat :=
  d <- gets docs ;;
  ret (if aggregate_ok env then List.length d else 0%nat).

(** [reset_collection]: errors are caught and reported as [False]; the
    later index calls go through [self.collection] whatever happened, and
    their outcome is the environment's. *)
Definition reset_collection : M bool :=
  match reset_outcome env with
  | ResetDone => set_docs [] ;;; emit EvReset ;;; ret true
  | ResetDeleteFails => ret false
  | ResetSetupFails => set_docs [] ;;; ret false
  end.

(** [zip(documents, embeddings)] with [doc_id] = enumeration index. *)
Fixpoint zip_docs (i : nat) (ds : list pystr) (es : list vec) : list doc :=
  match ds, es with
  | dd :: ds', e :: es' => (dd, Z.of_nat i, e) :: zip_docs (S i) ds' es'
  | _, _ => []
  end.

(** [insert_documents]: returns [True] or raises. *)
Definition insert_documents (ds : list pystr) (es : list vec) : M bool :=
  if batch_insert_ok env then
    d <- gets docs ;;
    let new := zip_docs 0 ds es in
    set_docs (d ++ new) ;;; emit (EvInsert (List.length new)) ;;; ret true
  else raise RetrievalError.

(** *** WeaviateRAGService.initialize_collection *)

Definition load_physics_text : M pystr :=
  match physics_text env with
  | Some t => ret t
  | None => raise ValueError
  end.

(** [[t.strip() for t in content.split('*****') if t.strip()]] *)
Definition make_chunks (content : pystr) : list pystr :=
  filter is_nonempty (map py_strip (py_split CHUNK_DELIMITER content)).

Definition initialize_collection (force_reset : bool) : M bool :=
  emit EvInitCollection ;;;
  try_except
    ((if force_reset then reset_collection ;;; ret tt else ret tt) ;;;
     n <- total_documents ;;
     if (0 <? n)%nat && negb force_reset then set_initialized ;;; ret true
     else
       content <- load_physics_text ;;
       let chunks := make_chunks content in
       embeddings <- lift (embed_batch env chunks) ;;
       success <- insert_documents chunks embeddings ;;
       if success then set_initialized ;;; ret true else ret false)
    (fun _ => ret false).

(** *** WeaviateRAGService.search *)

(** [result['search_type'] = search_type] *)
Definition set_search_type (st : string) (r : result) : result :=
  {| content := content r; doc_id := doc_id r; score := score r;
     rank := rank r; search_type := st |}.

(** The defaults and the [try] block of [search] (lines 131-179). *)
Definition search_body (query : pystr) (search_type : string) (top_k : option nat)
    (alpha : option Q) : M (list result) :=
  let k := match top_k with Some k => k | None => DEFAULT_TOP_K end in
  let a := match alpha with Some a => a | None => HYBRID_ALPHA end in
  try_except
    (results <-
       (if String.eqb search_type "hybrid" then
          query_embedding <- lift (embed_query env query) ;;
          hybrid_search query query_embedding a k
        else if String.eqb search_type "vector" then
          query_embedding <- lift (embed_query env query) ;;
          vector_search query_embedding k
        else if String.eqb search_type "keyword" then
          keyword_search query k
        else raise ValueError) ;;
     ret (map (set_search_type search_type) results))
    (fun e => raise e).

(** [search]: the lazy initialization gated by [self._initialized]
    (lines 128-129), then [search_body]. *)
Definition search (query : pystr) (search_type : string) (top_k : option nat)
    (alpha : option Q) : M (list result) :=
  init <- gets initialized ;;
  (if init then ret tt else initialize_collection false ;;; ret tt) ;;;
  search_body query search_type top_k alpha.

(** *** GenerationService *)

(** [generate_response]: provider failures are caught and replaced by the
    fixed apology text. *)
Definition generate_response (query context : pystr) : M pystr :=
  emit EvGenerate ;;;
  match generate_content env query context with
  | Some text => ret text
  | None => ret APOLOGY_TEXT
  end.

End Service.

(** A source entry of a chat answer. *)
Record source_info := mkSource {
  content_preview : pystr;
  src_score : pyfloat;
  src_doc_id : Z;
  src_rank : nat;
  src_search_type : string
}.

(** The chat answer dict ([response], [sources], [confidence] and, on the
    exception path, [error]); timing, count and echo keys are not modelled. *)
Record answer := mkAnswer {
  response : pystr;
  sources : list source_info;
  confidence : pyfloat;
  error : option err
}.

(** [content[:200] + "..." if len(content) > 200 else content] *)
Definition preview (c : pystr) : pystr :=
  if (200 <? List.length c)%nat then firstn 200 c ++ ELLIPSIS else c.

Definition mk_source (r : result) : source_info :=
  {| content_preview := preview (content r);
     src_score := score r;
     src_doc_id := doc_id r;
     src_rank := rank r;
     src_search_type := search_type r |}.

(** [confidence = min(score, 1.0); if confidence < 0:
     confidence = max(0.0, 1.0 - abs(confidence))] *)
Definition estimate_confidence (s : Q) : Q :=
  let c := py_min s 1 in
  if Qltb c 0 then py_max 0 (1 - Qabs c) else c.

Definition no_info_answer : answer :=
  {| response := NO_INFO_TEXT; sources := []; confidence := Some 0; error := None |}.

Section Orchestrator.

Variable env : Env.

(** [estimate_confidence] on a Python value: [min(None, 1.0)] raises. *)
Definition py_estimate_confidence (v : pyfloat) : exc Q :=
  match v with
  | Some s => inr (estimate_confidence s)
  | None => inl TypeError
  end.

Definition generate_with_sources (query : pystr) (search_results : list result) : M answer :=
  match search_results with
  | [] => ret no_info_answer
  | r0 :: _ =>
      try_except
        (response_text <- generate_response env query (content r0) ;;
         let srcs := map mk_source (firstn 3 search_results) in
         c <- lift (py_estimate_confidence (score r0)) ;;
         ret {| response := response_text; sources := srcs;
                confidence := Some c; error := None |})
        (fun _ => ret {| response := SOURCES_ERROR_TEXT; sources := [];
                         confidence := Some 0; error := None |})
  end.

(** *** WeaviateRAGService.chat *)
Definition chat (message : pystr) (include_sources : bool) (search_type : string)
    (top_k : option nat) : M answer :=
  let k := match top_k with Some k => k | None => DEFAULT_TOP_K end in
  try_except
    (search_results <- search env message search_type (Some k) None ;;
     match search_results with
     | [] => ret no_info_answer
     | r0 :: _ =>
         if include_sources then generate_with_sources message search_results
         else
           response_text <- generate_response env message (content r0) ;;
           ret {| response := response_text; sources := [];
                  confidence := score r0; error := None |}
     end)
    (fun e => ret {| response := APOLOGY_TEXT; sources := []; confidence := Some 0;
                     error := Some e |}).

(** *** WeaviateRAGService.get_similar_content *)

Record similar := mkSimilar {
  sim_content : pystr;
  similarity_score : pyfloat;
  sim_doc_id : Z
}.

Definition get_similar_content (text : pystr) (top_k : nat) : M (list similar) :=
  try_except
    (results <- search env text "vector" (Some top_k) None ;;
     ret (map (fun r => {| sim_content := content r; similarity_score := score r;
                           sim_doc_id := doc_id r |}) results))
    (fun _ => ret []).

(** *** The [/initialize] endpoint of [main.py] *)

Record initialize_response := mkInitResp {
  success : bool;
  documents_count : option nat
}.

Definition initialize_endpoint (force_reset : bool) : M initialize_response :=
  try_except
    (ok <- initialize_collection env force_reset ;;
     if ok then
       n <- total_documents env ;;
       ret {| success := true; documents_count := Some n |}
     else raise HTTPException)
    (fun _ => ret {| success := false; documents_count := None |}).

End Orchestrator.

(** ** A concrete environment for evaluation *)

(** An index holding [objs] that answers every query with its first
    [limit] objects; generation echoes the context when [gen_ok]. *)
Definition test_env (objs : list obj) (gen_ok : bool) (text : option pystr)
    (agg_ok : bool) (embed_ok : bool) : Env :=
  {| embed_query := fun _ => if embed_ok then inr [1] else inl ProviderError;
     embed_batch := fun cs => inr (map (fun _ => [1]) cs);
     query_hybrid := fun _ _ _ _ k => inr (firstn k objs);
     query_near_vector := fun _ _ k => inr (firstn k objs);
     query_bm25 := fun _ _ k => inr (firstn k objs);
     aggregate_ok := agg_ok;
     reset_outcome := ResetDone;
     batch_insert_ok := true;
     physics_text := text;
     generate_content := fun _ c => if gen_ok then Some c else None |}.

(** An index object with text [t], [doc_id] 7, metadata score [s] and
    distance [d]. *)
Definition test_obj (s d : Q) (t : pystr) : obj :=
  mkObj (Some t) (Some 7%Z) (mkMetadata (Some (Some s)) (Some (Some d))).

Definition fresh_service : svc := mkSvc false [] [].

(** ** Helper definitions for the statements below *)

Definition stays {A} (R : svc -> svc -> Prop) (m : M A) : Prop :=
  forall w, R w (snd (m w)).

(** Count of [initialize_collection] entries in a trace. *)
Definition is_init_ev (ev : event) : bool :=
  match ev with EvInitCollection => true | _ => false end.

Definition count_init (t : list event) : nat := List.length (filter is_init_ev t).

(** The confidence policy of the spec, over mathematical [min] / [max]. *)
Definition spec_confidence (s : Q) : Q :=
  if Qlt_le_dec s 0 then Qmax 0 (1 - Qabs s) else Qmin s 1.

(** [w'] extends the trace of [w] with events satisfying [P] only. *)
Definition adds_only (P : event -> bool) (w w' : svc) : Prop :=
  exists t, trace w' = trace w ++ t /\ forallb P t = true.

Definition not_generate (ev : event) : bool :=
  match ev with EvGenerate => false | _ => true end.

(** A keyword-mode index holding one object of score [s]. *)
Definition keyword_env (s : Q) (gen_ok : bool) : Env :=
  test_env [test_obj s 0 [1%N]] gen_ok None true true.

Definition ready_service : svc := mkSvc true [] [].

(** The service state the index queries of [search] see: the lazy
    initialization has run when the flag was unset. *)
Definition lazy_state (env : Env) (w : svc) : svc :=
  if initialized w then w else snd (initialize_collection env false w).

(** Neither the trace nor the initialized flag change. *)
Definition same_trace_flag (w w' : svc) : Prop :=
  trace w' = trace w /\ initialized w' = initialized w.

Definition not_init (ev : event) : bool := negb (is_init_ev ev).

(** A sequence of [search] calls on one service instance; a call that
    raises still leaves its state changes behind. *)
Fixpoint run_searches (env : Env) (calls : list (pystr * string * option nat * option Q))
    (w : svc) : svc :=
  match calls with
  | [] => w
  | (q, st, k, a) :: cs => run_searches env cs (snd (search env q st k a w))
  end.

Definition long_content : pystr := repeat 97%N 250.




(** The index honours the [limit] passed to each of its three queries
    (Weaviate's [limit] parameter). *)
Definition honours_limit (env : Env) : Prop :=
  (forall d q v a k objs, query_hybrid env d q v a k = inr objs -> (List.length objs <= k)%nat) /\
  (forall d v k objs, query_near_vector env d v k = inr objs -> (List.length objs <= k)%nat) /\
  (forall d q k objs, query_bm25 env d q k = inr objs -> (List.length objs <= k)%nat).

Definition three_objs : list obj :=
  [test_obj (9 # 10) 0 [1%N]; test_obj (1 # 2) 0 [2%N]; test_obj (1 # 10) 0 [3%N]].

(** An embedding provider that always fails. *)
Definition no_embedding_env : Env := test_env [] true None true false.

(** No physics text: every initialization attempt fails. *)
Definition no_text_env : Env := test_env [] true None true true.

Definition two_searches : list (pystr * string * option nat * option Q) :=
  [([1%N], "hybrid", None, None); ([2%N], "keyword", None, None)].

(** A physics text with two chunks. *)
Definition two_chunk_env : Env :=
  test_env [] true (Some [97; 42; 42; 42; 42; 42; 98]%N) true true.

(** The statistics query fails; one document is already stored. *)
Definition no_stats_env : Env := test_env [] true (Some [97]%N) false true.

Definition populated_service : svc := mkSvc true [([98]%N, 0%Z, [1])] [].

(** ** Further service code *)

(** ["sep".join(parts)] *)
Fixpoint py_join (sep : pystr) (parts : list pystr) : pystr :=
  match parts with
  | [] => []
  | [p] => p
  | p :: ps => p ++ sep ++ py_join sep ps
  end.

Local Open Scope N_scope.

(** ["\n\n---\n\n"], the separator of [generate_multi_context_response]. *)
Definition CONTEXT_SEPARATOR : pystr := [10; 10; 45; 45; 45; 10; 10].

(** "কোনো প্রসঙ্গ পাওয়া যায়নি।" (no context found). *)
Definition NO_CONTEXT_TEXT : pystr :=
  [2453; 2507; 2472; 2507; 32; 2474; 2509; 2480; 2488; 2457; 2509; 2455; 32;
   2474; 2494; 2451; 2479; 2492; 2494; 32; 2479; 2494; 2479; 2492; 2472; 2495;
   2404].

(** "একাধিক প্রসঙ্গ ব্যবহার করে উত্তর তৈরি করতে সমস্যা হয়েছে।" *)
Definition MULTI_CONTEXT_ERROR_TEXT : pystr :=
  [2447; 2453; 2494; 2471; 2495; 2453; 32; 2474; 2509; 2480; 2488; 2457; 2509;
   2455; 32; 2476; 2509; 2479; 2476; 2489; 2494; 2480; 32; 2453; 2480; 2503;
   32; 2441; 2468; 2509; 2468; 2480; 32; 2468; 2504; 2480; 2495; 32; 2453;
   2480; 2468; 2503; 32; 2488; 2478; 2488; 2509; 2479; 2494; 32; 2489; 2479;
   2492; 2503; 2459; 2503; 2404].

(** The tail of [f"'{concept}' সম্পর্কে কোনো তথ্য পাওয়া যায়নি।"]. *)
Definition CONCEPT_NOT_FOUND_SUFFIX : pystr :=
  [32; 2488; 2478; 2509; 2474; 2480; 2509; 2453; 2503; 32; 2453; 2507; 2472;
   2507; 32; 2468; 2469; 2509; 2479; 32; 2474; 2494; 2451; 2479; 2492; 2494;
   32; 2479; 2494; 2479; 2492; 2472; 2495; 2404].

(** The tail of [f"'{concept}' সম্পর্কে ব্যাখ্যা তৈরি করতে সমস্যা হয়েছে।"]. *)
Definition CONCEPT_ERROR_SUFFIX : pystr :=
  [32; 2488; 2478; 2509; 2474; 2480; 2509; 2453; 2503; 32; 2476; 2509; 2479;
   2494; 2454; 2509; 2479; 2494; 32; 2468; 2504; 2480; 2495; 32; 2453; 2480;
   2468; 2503; 32; 2488; 2478; 2488; 2509; 2479; 2494; 32; 2489; 2479; 2492;
   2503; 2459; 2503; 2404].

(** The [error_patterns] of [validate_response]. *)
Definition PAT_I_CANNOT : pystr := [73; 32; 99; 97; 110; 110; 111; 116].
Definition PAT_I_M_SORRY : pystr := [73; 39; 109; 32; 115; 111; 114; 114; 121].
Definition PAT_I_DONT_KNOW : pystr := [73; 32; 100; 111; 110; 39; 116; 32; 107; 110; 111; 119].
Definition PAT_ERROR : pystr := [101; 114; 114; 111; 114].
Definition PAT_FAILED : pystr := [102; 97; 105; 108; 101; 100].

(** ["test"] and ["test context"], the probes of [health_check]. *)
Definition TEST_TEXT : pystr := [116; 101; 115; 116].
Definition TEST_CONTEXT : pystr := [116; 101; 115; 116; 32; 99; 111; 110; 116; 101; 120; 116].

Local Close Scope N_scope.

Definition error_patterns : list pystr :=
  [PAT_I_CANNOT; PAT_I_M_SORRY; PAT_I_DONT_KNOW; PAT_ERROR; PAT_FAILED].

(** [f"'{concept}'..."]: the concept between single quotes, then [suffix]. *)
Definition quoted (concept suffix : pystr) : pystr := [39%N] ++ concept ++ [39%N] ++ suffix.

(** Python's [pattern in s] on strings. *)
Fixpoint py_contains (pat s : pystr) : bool :=
  is_prefix pat s || match s with [] => false | _ :: t => py_contains pat t end.

(** *** GenerationService.validate_response *)

Section Validate.

(** [str.lower()] *)
Variable py_lower : pystr -> pystr.

Definition validate_response (response : pystr) : bool :=
  if negb (is_nonempty response) || (List.length (py_strip response) <? 10)%nat then false
  else
    let response_lower := py_lower response in
    forallb (fun pattern => negb (py_contains pattern response_lower)) error_patterns.

End Validate.

(** *** GenerationService.generate_multi_context_response and
    WeaviateRAGService.explain_concept *)

(** The explanation dict; [expl_concept] is the [concept] key, present only
    on the success path. *)
Record explanation := mkExplanation {
  explanation_text : pystr;
  expl_sources : list result;
  expl_concept : option pystr;
  expl_error : option err
}.

Section Explain.

Variable env : Env.
(** The generation provider on the multi-context prompt, a function of the
    query and the combined context; [None]: the call raised. *)
Variable generate_multi : pystr -> pystr -> option pystr.

Definition generate_multi_context_response (query : pystr) (contexts : list pystr) : M pystr :=
  match contexts with
  | [] => ret NO_CONTEXT_TEXT
  | _ :: _ =>
      let combined_context := py_join CONTEXT_SEPARATOR (firstn 3 contexts) in
      emit EvGenerate ;;;
      match generate_multi query combined_context with
      | Some text => ret text
      | None => ret MULTI_CONTEXT_ERROR_TEXT
      end
  end.

Definition explain_concept (concept : pystr) (top_k : option nat) : M explanation :=
  let k := match top_k with Some k => k | None => 3%nat end in
  try_except
    (search_results <- search env concept "hybrid" (Some k) None ;;
     match search_results with
     | [] => ret {| explanation_text := quoted concept CONCEPT_NOT_FOUND_SUFFIX;
                    expl_sources := []; expl_concept := None; expl_error := None |}
     | _ :: _ =>
         let contexts := map content (firstn 2 search_results) in
         explanation <- generate_multi_context_response concept contexts ;;
         ret {| explanation_text := explanation; expl_sources := firstn 2 search_results;
                expl_concept := Some concept; expl_error := None |}
     end)
    (fun e => ret {| explanation_text := quoted concept CONCEPT_ERROR_SUFFIX;
                     expl_sources := []; expl_concept := None; expl_error := Some e |}).

(** The [/explain] endpoint: [ConceptResponse] built from the dict requires the
    [concept] key, and each of its [sources] must pass [SearchResult], whose
    [score] is a [float]; a validation error, like any other exception,
    becomes an HTTP 500. *)
Definition explain_endpoint (concept : pystr) (top_k : option nat) : M explanation :=
  try_except
    (response <- explain_concept concept top_k ;;
     match expl_concept response with
     | Some _ =>
         if forallb (fun r => is_float (score r)) (expl_sources response)
         then ret response else raise ValueError
     | None => raise ValueError
     end)
    (fun _ => raise HTTPException).

End Explain.

(** *** WeaviateRAGService.health_check *)

Record health := mkHealth {
  overall_status : string;
  embedding_status : string;
  embedding_dimension : option nat;
  weaviate_status : string;
  document_count : option nat;
  generation_status : string
}.

Section Health.

Variable env : Env.
(** The generation provider on the simple prompt, a function of (query,
    context); [None]: the call raised. *)
Variable generate_simple : pystr -> pystr -> option pystr.

(** [generate_simple_response]: failures are caught. *)
Definition generate_simple_response (query context : pystr) : M pystr :=
  emit EvGenerate ;;;
  match generate_simple query context with
  | Some text => ret text
  | None => ret SOURCES_ERROR_TEXT
  end.

(** The three probes; each returns its service entry and whether it set
    [health_status['status'] = 'degraded']. *)
Definition health_check : M health :=
  emb <- try_except
           (test_embedding <- lift (embed_query env TEST_TEXT) ;;
            ret (if is_nonempty test_embedding then "healthy" else "unhealthy",
                 (if is_nonempty test_embedding then Some (List.length test_embedding)
                  else None), false))
           (fun _ => ret ("unhealthy", None, true)) ;;
  weav <- try_except
            (n <- total_documents env ;; ret ("healthy", Some n, false))
            (fun _ => ret ("unhealthy", None, true)) ;;
  gen <- try_except
           (test_response <- generate_simple_response TEST_TEXT TEST_CONTEXT ;;
            ret (if is_nonempty test_response then "healthy" else "unhealthy", false))
           (fun _ => ret ("unhealthy", true)) ;;
  let '(emb_status, dim, d1) := emb in
  let '(weav_status, count, d2) := weav in
  let '(gen_status, d3) := gen in
  ret {| overall_status := if d1 || d2 || d3 then "degraded" else "healthy";
         embedding_status := emb_status; embedding_dimension := dim;
         weaviate_status := weav_status; document_count := count;
         generation_status := gen_status |}.

(** The [/health] endpoint: a non-healthy status is answered with a 503. *)
Definition health_endpoint : M health :=
  try_except
    (h <- health_check ;;
     if String.eqb (overall_status h) "healthy" then ret h else raise HTTPException)
    (fun _ => raise HTTPException).

End Health.

(** *** The [/chat] endpoint of [main.py] *)

Section ChatEndpoint.

Variable env : Env.

(** [chat] together with the keys of the dict it returns.  The sources
    path also carries [total_sources], which [ChatResponse] ignores. *)
Definition chat_dict (message : pystr) (include_sources : bool) (search_type : string)
    (top_k : option nat) : M (answer * list string) :=
  let k := match top_k with Some k => k | None => DEFAULT_TOP_K end in
  try_except
    (search_results <- search env message search_type (Some k) None ;;
     match search_results with
     | [] => ret (no_info_answer,
                  ["response"; "sources"; "confidence"; "total_time"; "search_type"])
     | r0 :: _ =>
         result <-
           (if include_sources then generate_with_sources env message search_results
            else
              response_text <- generate_response env message (content r0) ;;
              ret {| response := response_text; sources := [];
                     confidence := score r0; error := None |}) ;;
         ret (result, ["response"; "sources"; "confidence"; "total_time";
                       "search_results_count"; "search_type"; "message"])
     end)
    (fun e => ret ({| response := APOLOGY_TEXT; sources := []; confidence := Some 0;
                      error := Some e |},
                   ["response"; "sources"; "confidence"; "total_time"; "search_type";
                    "error"])).

(** The required fields of [ChatResponse], its [float] field [confidence]
    with the [ge=0.0, le=1.0] bound, and the [float] field [score] of each
    [SourceInfo]. *)
Definition chat_response_required : list string :=
  ["response"; "confidence"; "total_time"; "search_results_count"; "search_type"; "message"].

Definition confidence_valid (c : pyfloat) : bool :=
  match c with Some q => Qle_bool 0 q && Qle_bool q 1 | None => false end.

Definition chat_response_valid (a : answer) (keys : list string) : bool :=
  forallb (fun f => existsb (String.eqb f) keys) chat_response_required
  && confidence_valid (confidence a)
  && forallb (fun si => is_float (src_score si)) (sources a).

(** [ChatResponse] built from the dict; pydantic's [ValidationError] is a
    [ValueError]; every exception becomes an HTTP 500. *)
Definition chat_endpoint (message : pystr) (include_sources : bool) (search_type : string)
    (top_k : option nat) : M answer :=
  try_except
    (r <- chat_dict message include_sources search_type top_k ;;
     if chat_response_valid (fst r) (snd r) then ret (fst r) else raise ValueError)
    (fun _ => raise HTTPException).

End ChatEndpoint.

(** [str.lower()] on ASCII letters; other code points unchanged. *)
Definition ascii_lower (s : pystr) : pystr :=
  map (fun c => if ((65 <=? c) && (c <=? 90))%N then (c + 32)%N else c) s.

(** The state is left as it was. *)
Definition unchanged (w w' : svc) : Prop := w' = w.

(** [env] with another query-embedding provider. *)
Definition with_embed_query (env : Env) (f : pystr -> exc vec) : Env :=
  {| embed_query := f; embed_batch := embed_batch env;
     query_hybrid := query_hybrid env; query_near_vector := query_near_vector env;
     query_bm25 := query_bm25 env; aggregate_ok := aggregate_ok env;
     reset_outcome := reset_outcome env; batch_insert_ok := batch_insert_ok env;
     physics_text := physics_text env; generate_content := generate_content env |}.

(** [env] with another outcome of [reset_collection]. *)
Definition with_reset_outcome (env : Env) (o : reset_result) : Env :=
  {| embed_query := embed_query env; embed_batch := embed_batch env;
     query_hybrid := query_hybrid env; query_near_vector := query_near_vector env;
     query_bm25 := query_bm25 env; aggregate_ok := aggregate_ok env;
     reset_outcome := o; batch_insert_ok := batch_insert_ok env;
     physics_text := physics_text env; generate_content := generate_content env |}.

(** ** Generic lemmas: how the monadic combinators move the state *)

Section Stays.

Variable R : svc -> svc -> Prop.
Hypothesis R_refl : forall w, R w w.
Hypothesis R_trans : forall w1 w2 w3, R w1 w2 -> R w2 w3 -> R w1 w3.

Lemma stays_ret {A} (x : A) : stays R (ret x).
Proof. intro w. apply R_refl. Qed.

Lemma stays_raise {A} (e : err) : stays R (@raise A e).
Proof. intro w. apply R_refl. Qed.

Lemma stays_lift {A} (r : exc A) : stays R (lift r).
Proof. intro w. apply R_refl. Qed.

Lemma stays_gets {A} (f : svc -> A) : stays R (gets f).
Proof. intro w. apply R_refl. Qed.

Lemma stays_bind {A B} (m : M A) (k : A -> M B) :
  stays R m -> (forall x, stays R (k x)) -> stays R (bind m k).
Proof.
  intros Hm Hk w. unfold bind. specialize (Hm w).
  destruct (m w) as [[e | x] w'] eqn:Em; simpl in *; auto.
  eapply R_trans; [exact Hm | apply Hk].
Qed.

Lemma stays_try {A} (m : M A) (h : err -> M A) :
  stays R m -> (forall e, stays R (h e)) -> stays R (try_except m h).
Proof.
  intros Hm Hh w. unfold try_except. specialize (Hm w).
  destruct (m w) as [[e | x] w'] eqn:Em; simpl in *; auto.
  eapply R_trans; [exact Hm | apply Hh].
Qed.

Lemma stays_if {A} (b : bool) (m1 m2 : M A) :
  stays R m1 -> stays R m2 -> stays R (if b then m1 else m2).
Proof. destruct b; auto. Qed.

End Stays.

Create HintDb stays_db.
#[export] Hint Resolve stays_ret stays_raise stays_lift stays_gets stays_bind
  stays_try stays_if : stays_db.

(** Repeatedly split a monadic program into its steps. *)
Ltac stays_split :=
  repeat match goal with
  | |- stays _ (bind _ _) => apply stays_bind; [solve [eauto with stays_db] .. | | intro]
  | |- stays _ (try_except _ _) => apply stays_try; [solve [eauto with stays_db] .. | | intro]
  | |- stays _ (if _ then _ else _) => apply stays_if
  | |- stays _ (match ?x with _ => _ end) => destruct x
  | |- stays _ (ret _) => apply stays_ret; eauto with stays_db
  | |- stays _ (raise _) => apply stays_raise; eauto with stays_db
  | |- stays _ (lift _) => apply stays_lift; eauto with stays_db
  | |- stays _ (gets _) => apply stays_gets; eauto with stays_db
  end.

Lemma count_init_app t1 t2 : count_init (t1 ++ t2) = (count_init t1 + count_init t2)%nat.
Proof. unfold count_init. rewrite filter_app, length_app. reflexivity. Qed.

(** ** Python [min] / [max] on [Q] *)

Lemma Qltb_true x y : Qltb x y = true -> x < y.
Proof.
  unfold Qltb. destruct (Qle_bool y x) eqn:E; simpl; intro H; [discriminate|].
  apply Qnot_le_lt. intro Hle. apply Qle_bool_iff in Hle. congruence.
Qed.

Lemma Qltb_false x y : Qltb x y = false -> y <= x.
Proof.
  unfold Qltb. destruct (Qle_bool y x) eqn:E; simpl; intro H; [|discriminate].
  apply Qle_bool_iff. exact E.
Qed.

Lemma py_min_Qmin a b : py_min a b == Qmin a b.
Proof.
  unfold py_min. destruct (Qltb b a) eqn:E.
  - apply Qltb_true in E. symmetry. apply Q.min_r. lra.
  - apply Qltb_false in E. symmetry. apply Q.min_l. exact E.
Qed.

Lemma py_max_Qmax a b : py_max a b == Qmax a b.
Proof.
  unfold py_max. destruct (Qltb a b) eqn:E.
  - apply Qltb_true in E. symmetry. apply Q.max_r. lra.
  - apply Qltb_false in E. symmetry. apply Q.max_l. exact E.
Qed.

Lemma estimate_confidence_spec s : estimate_confidence s == spec_confidence s.
Proof.
  unfold estimate_confidence, spec_confidence, py_min.
  destruct (Qlt_le_dec s 0) as [Hs | Hs].
  - destruct (Qltb 1 s) eqn:E1.
    + apply Qltb_true in E1. lra.
    + destruct (Qltb s 0) eqn:E2.
      * apply py_max_Qmax.
      * apply Qltb_false in E2. lra.
  - destruct (Qltb 1 s) eqn:E1.
    + apply Qltb_true in E1. replace (Qltb 1 0) with false by reflexivity.
      symmetry. apply Q.min_r. lra.
    + apply Qltb_false in E1. destruct (Qltb s 0) eqn:E2.
      * apply Qltb_true in E2. lra.
      * symmetry. apply Q.min_l. exact E1.
Qed.

Lemma estimate_confidence_bounds s : 0 <= estimate_confidence s <= 1.
Proof.
  rewrite estimate_confidence_spec. unfold spec_confidence.
  destruct (Qlt_le_dec s 0) as [Hs | Hs].
  - split; [apply Q.le_max_l|]. apply Q.max_lub; [lra|].
    pose proof (Qabs_nonneg s). lra.
  - split.
    + apply Q.min_glb; lra.
    + apply Q.le_min_r.
Qed.

(** ** How [chat] continues after the search step *)

Section ChatSteps.

Variable env : Env.
Variables (message : pystr) (include_sources : bool) (st : string) (top_k : option nat).
Variables (w w1 : svc).

Let k := match top_k with Some k => k | None => DEFAULT_TOP_K end.

Lemma chat_search_failed e :
  search env message st (Some k) None w = (inl e, w1) ->
  chat env message include_sources st top_k w =
    (inr {| response := APOLOGY_TEXT; sources := []; confidence := Some 0;
            error := Some e |}, w1).
Proof. intro H. unfold chat, try_except, bind. fold k. rewrite H. reflexivity. Qed.

Lemma chat_search_empty :
  search env message st (Some k) None w = (inr [], w1) ->
  chat env message include_sources st top_k w = (inr no_info_answer, w1).
Proof. intro H. unfold chat, try_except, bind. fold k. rewrite H. reflexivity. Qed.

Lemma chat_search_nonempty r0 rs :
  search env message st (Some k) None w = (inr (r0 :: rs), w1) ->
  chat env message include_sources st top_k w =
    (inr (match include_sources, score r0 with
          | true, None =>
              {| response := SOURCES_ERROR_TEXT; sources := [];
                 confidence := Some 0; error := None |}
          | _, _ =>
              {| response := match generate_content env message (content r0) with
                             | Some t => t | None => APOLOGY_TEXT end;
                 sources := if include_sources then map mk_source (firstn 3 (r0 :: rs))
                            else [];
                 confidence := if include_sources
                               then option_map estimate_confidence (score r0)
                               else score r0;
                 error := None |}
          end),
     {| initialized := initialized w1; docs := docs w1;
        trace := trace w1 ++ [EvGenerate] |}).
Proof.
  intro H. unfold chat, try_except, bind. fold k. rewrite H.
  destruct include_sources; simpl;
    unfold generate_with_sources, generate_response, try_except, bind, emit, ret, lift;
    simpl; destruct (generate_content env message (content r0));
    destruct (score r0); reflexivity.
Qed.

End ChatSteps.

(** ** Events added to the trace *)

Lemma adds_only_refl P w : adds_only P w w.
Proof. exists []. rewrite app_nil_r. auto. Qed.

Lemma adds_only_trans P w1 w2 w3 :
  adds_only P w1 w2 -> adds_only P w2 w3 -> adds_only P w1 w3.
Proof.
  intros [t1 [E1 F1]] [t2 [E2 F2]]. exists (t1 ++ t2).
  rewrite E2, E1, app_assoc, forallb_app, F1, F2. auto.
Qed.

Lemma adds_only_emit P ev : P ev = true -> stays (adds_only P) (emit ev).
Proof. intros H w. exists [ev]. simpl. rewrite H. auto. Qed.

Lemma adds_only_set_docs P d : stays (adds_only P) (set_docs d).
Proof. intro w. exists []. simpl. rewrite app_nil_r. auto. Qed.

Lemma adds_only_set_initialized P : stays (adds_only P) set_initialized.
Proof. intro w. exists []. simpl. rewrite app_nil_r. auto. Qed.

#[export] Hint Resolve adds_only_refl adds_only_trans adds_only_emit
  adds_only_set_docs adds_only_set_initialized : stays_db.

Section SearchEvents.

Variable env : Env.
Variable P : event -> bool.
Hypothesis P_init : P EvInitCollection = true.
Hypothesis P_reset : P EvReset = true.
Hypothesis P_insert : forall n, P (EvInsert n) = true.

Lemma initialize_collection_adds_only force_reset :
  stays (adds_only P) (initialize_collection env force_reset).
Proof.
  unfold initialize_collection, reset_collection, total_documents,
    load_physics_text, insert_documents.
  cbv beta zeta. stays_split; eauto with stays_db.
Qed.

Lemma search_adds_only q st top_k alpha :
  stays (adds_only P) (search env q st top_k alpha).
Proof.
  unfold search, search_body, hybrid_search, vector_search, keyword_search.
  cbv beta zeta. stays_split; eauto using initialize_collection_adds_only with stays_db.
Qed.

End SearchEvents.

Lemma preview_spec c :
  ((List.length c <= 200)%nat -> preview c = c) /\
  ((200 < List.length c)%nat ->
     preview c = firstn 200 c ++ ELLIPSIS /\ List.length (preview c) = 203%nat).
Proof.
  unfold preview. split; intro H.
  - destruct (Nat.ltb_spec 200 (List.length c)); [lia | reflexivity].
  - destruct (Nat.ltb_spec 200 (List.length c)); [|lia]. split; [reflexivity|].
    rewrite length_app, firstn_length_le by lia. reflexivity.
Qed.

Lemma Forall2_map_r {A B} (R : A -> B -> Prop) (f : A -> B) (l : list A) :
  (forall x, R x (f x)) -> Forall2 R l (map f l).
Proof. intro H. induction l; simpl; constructor; auto. Qed.

(** With sources included, the confidence of a non-empty retrieval is
    always in [0, 1] (the sources-included half of the confidence bound). *)
Lemma chat_sources_confidence_in_unit env message st top_k w w1 r0 rs :
  search env message st (Some (match top_k with Some k => k | None => DEFAULT_TOP_K end))
    None w = (inr (r0 :: rs), w1) ->
  exists a w2 c, chat env message true st top_k w = (inr a, w2) /\
    confidence a = Some c /\ 0 <= c <= 1.
Proof.
  intro H. rewrite (chat_search_nonempty _ _ _ _ _ _ _ _ _ H).
  destruct (score r0) as [s|] eqn:Hs; simpl.
  - eexists _, _, _. split; [reflexivity|]. split; [reflexivity|].
    apply estimate_confidence_bounds.
  - eexists _, _, _. split; [reflexivity|]. split; [reflexivity|]. lra.
Qed.

(** ** The shape of a successful search *)

Lemma enumerate_map_length {A B} (f : nat -> A -> B) i l :
  List.length (enumerate_map f i l) = List.length l.
Proof. revert i. induction l; intro i; simpl; auto. Qed.

Lemma enumerate_map_nth {A B} (f : nat -> A -> B) i l n :
  nth_error (enumerate_map f i l) n = option_map (f (i + n)%nat) (nth_error l n).
Proof.
  revert i n. induction l as [|x l IH]; intros i n; destruct n; simpl; auto.
  - rewrite Nat.add_0_r. reflexivity.
  - rewrite IH. rewrite Nat.add_succ_r. reflexivity.
Qed.

Lemma search_ok_shape env q st top_k alpha w rs w' :
  search env q st top_k alpha w = (inr rs, w') ->
  let k := match top_k with Some k => k | None => DEFAULT_TOP_K end in
  let a := match alpha with Some a => a | None => HYBRID_ALPHA end in
  let d := docs (lazy_state env w) in
  exists objs f,
    rs = map (set_search_type st) (enumerate_map f 0 objs) /\
    (forall i o, rank (f i o) = S i) /\
    ((exists v, query_hybrid env d q v a k = inr objs) \/
     (exists v, query_near_vector env d v k = inr objs) \/
     query_bm25 env d q k = inr objs).
Proof.
  intros H k a d. unfold d, lazy_state. clear d.
  unfold search, search_body, hybrid_search, vector_search, keyword_search,
    bind, try_except, gets, lift, ret, raise in H.
  fold k a in H.
  destruct (initialized w);
    [| destruct (initialize_collection env false w) as [[e|x] w0]; [discriminate|]; simpl];
    (destruct (String.eqb st "hybrid");
     [| destruct (String.eqb st "vector");
        [| destruct (String.eqb st "keyword"); [|discriminate]]]);
    try (destruct (embed_query env q) as [e|v]; [discriminate|]);
    match type of H with
    | context [query_hybrid ?e ?d ?q ?v ?a ?k] =>
        destruct (query_hybrid e d q v a k) as [err|objs] eqn:E; [discriminate|];
        injection H as <- _; exists objs, hybrid_result; eauto 6
    | context [query_near_vector ?e ?d ?v ?k] =>
        destruct (query_near_vector e d v k) as [err|objs] eqn:E; [discriminate|];
        injection H as <- _; exists objs, vector_result; eauto 7
    | context [query_bm25 ?e ?d ?q ?k] =>
        destruct (query_bm25 e d q k) as [err|objs] eqn:E; [discriminate|];
        injection H as <- _; exists objs, keyword_result; eauto 7
    end.
Qed.

(** ** Lazy initialization *)

Lemma initialize_collection_total env force_reset w :
  exists b, fst (initialize_collection env force_reset w) = inr b.
Proof.
  unfold initialize_collection. unfold bind at 1. unfold try_except at 1. simpl.
  match goal with
  | |- exists b, fst (match ?m with _ => _ end) = _ => destruct m as [[e|b] w']
  end; simpl; eauto.
Qed.

(** [search] runs its body on the state left by the lazy initialization. *)
Lemma search_lazy env q st top_k alpha w :
  search env q st top_k alpha w = search_body env q st top_k alpha (lazy_state env w).
Proof.
  unfold search, lazy_state. unfold bind at 1 2, gets.
  destruct (initialized w); [reflexivity|].
  unfold bind at 1.
  destruct (initialize_collection_total env false w) as [b Hb].
  destruct (initialize_collection env false w) as [r w0]. simpl in Hb. subst r.
  reflexivity.
Qed.

Lemma same_trace_flag_refl w : same_trace_flag w w.
Proof. split; reflexivity. Qed.

Lemma same_trace_flag_trans w1 w2 w3 :
  same_trace_flag w1 w2 -> same_trace_flag w2 w3 -> same_trace_flag w1 w3.
Proof. intros [E1 F1] [E2 F2]. split; congruence. Qed.

#[export] Hint Resolve same_trace_flag_refl same_trace_flag_trans : stays_db.

Lemma search_body_same env q st top_k alpha :
  stays same_trace_flag (search_body env q st top_k alpha).
Proof.
  unfold search_body, hybrid_search, vector_search, keyword_search.
  cbv beta zeta. stays_split.
Qed.

Lemma search_state env q st top_k alpha w :
  same_trace_flag (lazy_state env w) (snd (search env q st top_k alpha w)).
Proof. rewrite search_lazy. apply search_body_same. Qed.

(** [initialize_collection] adds exactly one [EvInitCollection] event. *)
Lemma initialize_collection_trace env force_reset w :
  exists t, trace (snd (initialize_collection env force_reset w))
            = trace w ++ EvInitCollection :: t /\ count_init t = 0%nat.
Proof.
  unfold initialize_collection. unfold bind at 1, emit at 1.
  match goal with
  | |- context [try_except ?m ?h ?w1] =>
      assert (Hs : stays (adds_only not_init) (try_except m h))
        by (unfold reset_collection, total_documents, load_physics_text, insert_documents;
            cbv beta zeta; stays_split; eauto with stays_db);
      destruct (Hs w1) as [t [Et Ft]]
  end.
  exists t. split.
  - simpl. rewrite Et. simpl. rewrite <- app_assoc. reflexivity.
  - clear Et. induction t as [|ev t IH]; [reflexivity|].
    simpl in Ft. apply andb_prop in Ft as [F1 F2].
    unfold count_init. simpl. unfold not_init in F1.
    destruct (is_init_ev ev); [discriminate|]. apply IH, F2.
Qed.

(** On an uninitialized service, [initialize_collection false] sets the flag
    exactly when it reports success. *)
Lemma initialize_collection_flag env w b :
  initialized w = false ->
  fst (initialize_collection env false w) = inr b ->
  initialized (snd (initialize_collection env false w)) = b.
Proof.
  intros Hw Hb. revert Hb.
  unfold initialize_collection, reset_collection, total_documents,
    load_physics_text, insert_documents, bind, try_except, emit, gets, lift,
    ret, raise, set_initialized, set_docs.
  simpl. rewrite Hw.
  destruct (aggregate_ok env); simpl;
    [destruct (0 <? Datatypes.length (docs w))%nat; simpl;
     [intro H; injection H; auto|] |];
    (destruct (physics_text env); simpl; [|intro H; injection H; auto]);
    (destruct (embed_batch env _); simpl; [intro H; injection H; auto|]);
    (destruct (batch_insert_ok env); simpl; intro H; injection H; auto).
Qed.

(** Initialization over a populated collection whose statistics query
    succeeds: only the flag is set. *)
Lemma initialize_collection_existing env w :
  aggregate_ok env = true -> docs w <> [] ->
  initialize_collection env false w =
    (inr true, {| initialized := true; docs := docs w;
                  trace := trace w ++ [EvInitCollection] |}).
Proof.
  intros Ha Hd.
  unfold initialize_collection, total_documents, bind, try_except, emit, gets,
    ret, set_initialized.
  simpl. rewrite Ha. destruct (docs w) as [|d0 ds]; [contradiction|]. reflexivity.
Qed.

Lemma run_searches_initialized env calls w :
  initialized w = true ->
  trace (run_searches env calls w) = trace w /\ initialized (run_searches env calls w) = true.
Proof.
  revert w. induction calls as [|[[[q st] k] a] cs IH]; intros w Hw; simpl; auto.
  destruct (search_state env q st k a w) as [Et Ei].
  unfold lazy_state in Et, Ei. rewrite Hw in Et, Ei.
  destruct (IH _ (eq_trans Ei Hw)) as [E1 E2]. split; congruence.
Qed.

(** * Claims *)

(** ** C1 *)

(** C1 (code defect): with [include_sources = false], [chat] copies
    result[0]'s raw score into the confidence unclamped, so a keyword
    (BM25) score of 2.5 yields confidence 2.5, outside [0, 1], although the
    sources-included path clamps ([chat_sources_confidence_in_unit]) and
    [ChatResponse] declares [confidence] with [ge=0.0, le=1.0]. *)
Lemma C1_chat_without_sources_unclamped :
  match fst (chat (keyword_env (5 # 2) true) [1%N] false "keyword" None ready_service) with
  | inr a => match confidence a with Some c => c == 5 # 2 /\ 1 < c | None => False end
  | inl _ => False
  end.
Proof. vm_compute. split; reflexivity. Qed.

(** ** C2 *)




(** ** C5 *)

(** C5: in the sources-included chat flow, when result[0]'s raw score is a
    number [s], the confidence is [max(0, 1 - |s|)] when [s < 0] and
    [min(s, 1)] otherwise. *)
Theorem C5_chat_confidence_policy env message st top_k w w1 r0 rs s :
  search env message st (Some (match top_k with Some k => k | None => DEFAULT_TOP_K end))
    None w = (inr (r0 :: rs), w1) ->
  score r0 = Some s ->
  exists a w2 c, chat env message true st top_k w = (inr a, w2) /\
    confidence a = Some c /\
    c == (if Qlt_le_dec s 0 then Qmax 0 (1 - Qabs s) else Qmin s 1).
Proof.
  intros H Hs. rewrite (chat_search_nonempty _ _ _ _ _ _ _ _ _ H), Hs. simpl.
  eexists _, _, _. split; [reflexivity|]. split; [reflexivity|].
  apply estimate_confidence_spec.
Qed.

Lemma C5_chat_confidence_policy_witness :
  exists a w2 c, chat (keyword_env (-3 # 10) true) [1%N] true "keyword" None ready_service
    = (inr a, w2) /\
    confidence a = Some c /\
    c == (if Qlt_le_dec (-3 # 10) 0 then Qmax 0 (1 - Qabs (-3 # 10))
          else Qmin (-3 # 10) 1).
Proof.
  apply (C5_chat_confidence_policy (keyword_env (-3 # 10) true) [1%N] "keyword" None
           ready_service ready_service (mkResult [1%N] 7 (Some (-3 # 10)) 1 "keyword") []);
    reflexivity.
Defined.

(** ** C6 *)

(** C6: when retrieval returns no result, [chat] answers with the fixed
    "no relevant information found" text, confidence 0.0 and no sources,
    and no [EvGenerate] event is added: the generation gateway is never
    invoked. *)
Theorem C6_chat_empty_retrieval env message include_sources st top_k w w1 :
  search env message st (Some (match top_k with Some k => k | None => DEFAULT_TOP_K end))
    None w = (inr [], w1) ->
  exists a w2, chat env message include_sources st top_k w = (inr a, w2) /\
    response a = NO_INFO_TEXT /\ confidence a = Some 0 /\ sources a = [] /\
    adds_only not_generate w w2.
Proof.
  intro H. exists no_info_answer, w1.
  split; [apply (chat_search_empty _ _ _ _ _ _ _ H)|].
  split; [reflexivity|]. split; [reflexivity|]. split; [reflexivity|].
  pose proof (search_adds_only env not_generate eq_refl eq_refl (fun _ => eq_refl)
                message st (Some (match top_k with Some k => k | None => DEFAULT_TOP_K end))
                None w) as Hw.
  rewrite H in Hw. exact Hw.
Qed.

Lemma C6_chat_empty_retrieval_witness :
  exists a w2, chat (test_env [] true None true true) [1%N] true "hybrid" None fresh_service
    = (inr a, w2) /\
    response a = NO_INFO_TEXT /\ confidence a = Some 0 /\ sources a = [] /\
    adds_only not_generate fresh_service w2.
Proof.
  apply (C6_chat_empty_retrieval (test_env [] true None true true) [1%N] true "hybrid" None
           fresh_service (mkSvc false [] [EvInitCollection])).
  reflexivity.
Defined.

(** ** C8 *)

(** C8: the sources of a sources-included chat answer are the previews of
    the first three results, each unchanged up to 200 code points and
    otherwise its first 200 code points followed by the 3-character
    ["..."]; the one exception is a top result whose score is [None], where
    the handler of [generate_with_sources] answers with no sources. *)
Theorem C8_chat_source_previews env message st top_k w w1 rs a w2 :
  search env message st (Some (match top_k with Some k => k | None => DEFAULT_TOP_K end))
    None w = (inr rs, w1) ->
  chat env message true st top_k w = (inr a, w2) ->
  (Forall2 (fun r src =>
      ((List.length (content r) <= 200)%nat -> content_preview src = content r) /\
      ((200 < List.length (content r))%nat ->
         content_preview src = firstn 200 (content r) ++ ELLIPSIS /\
         List.length (content_preview src) = 203%nat))
    (firstn 3 rs) (sources a) \/
   (sources a = [] /\ exists r0 rs', rs = r0 :: rs' /\ score r0 = None)) /\
  ELLIPSIS = [46; 46; 46]%N.
Proof.
  intros Hs Hc. split; [|reflexivity]. destruct rs as [|r0 rs].
  - rewrite (chat_search_empty _ _ _ _ _ _ _ Hs) in Hc. inversion Hc. left. constructor.
  - rewrite (chat_search_nonempty _ _ _ _ _ _ _ _ _ Hs) in Hc. injection Hc as Ha _. subst a.
    destruct (score r0) as [s|] eqn:Hr.
    + left.
      match goal with
      | |- Forall2 ?R _ _ =>
          change (Forall2 R (firstn 3 (r0 :: rs)) (map mk_source (firstn 3 (r0 :: rs))))
      end.
      apply Forall2_map_r. intro r. apply preview_spec.
    + right. split; [reflexivity|]. eauto.
Qed.

Lemma C8_chat_source_previews_witness :
  (Forall2 (fun r src =>
      ((List.length (content r) <= 200)%nat -> content_preview src = content r) /\
      ((200 < List.length (content r))%nat ->
         content_preview src = firstn 200 (content r) ++ ELLIPSIS /\
         List.length (content_preview src) = 203%nat))
    (firstn 3 [mkResult long_content 7 (Some (1 # 2)) 1 "keyword"])
    (map mk_source [mkResult long_content 7 (Some (1 # 2)) 1 "keyword"]) \/
   (map mk_source [mkResult long_content 7 (Some (1 # 2)) 1 "keyword"] = [] /\
    exists r0 rs', [mkResult long_content 7 (Some (1 # 2)) 1 "keyword"] = r0 :: rs' /\
                   score r0 = None)) /\
  ELLIPSIS = [46; 46; 46]%N.
Proof.
  apply (C8_chat_source_previews
           (test_env [test_obj (1 # 2) 0 long_content] true None true true)
           [1%N] "keyword" None ready_service ready_service
           [mkResult long_content 7 (Some (1 # 2)) 1 "keyword"]
           {| response := long_content;
              sources := map mk_source [mkResult long_content 7 (Some (1 # 2)) 1 "keyword"];
              confidence := Some (estimate_confidence (1 # 2)); error := None |}
           (mkSvc true [] [EvGenerate])); reflexivity.
Defined.

(** ** C10 *)




(** ** C7 *)

(** C7: over an index that honours [limit], every result sequence of
    [search] in mode vector, keyword or hybrid has at most [top_k]
    elements, the result at 0-based position [i] has rank [i + 1] (so the
    ranks are exactly 1..n), and every result is tagged with the requested
    mode. *)
Theorem C7_search_ranks_and_modes env q st top_k alpha w rs w' :
  honours_limit env ->
  st = "vector" \/ st = "keyword" \/ st = "hybrid" ->
  search env q st top_k alpha w = (inr rs, w') ->
  (List.length rs <= match top_k with Some k => k | None => DEFAULT_TOP_K end)%nat /\
  (forall i r, nth_error rs i = Some r -> rank r = S i /\ search_type r = st).
Proof.
  intros [Hh [Hv Hb]] _ H.
  destruct (search_ok_shape _ _ _ _ _ _ _ _ H) as [objs [f [-> [Hrank Hq]]]].
  split.
  - rewrite length_map, enumerate_map_length.
    destruct Hq as [[v E] | [[v E] | E]]; eauto.
  - intros i r Hn. rewrite nth_error_map, enumerate_map_nth in Hn.
    destruct (nth_error objs i) as [o|]; simpl in Hn; [|discriminate].
    injection Hn as <-. simpl. auto.
Qed.

Lemma C7_search_ranks_and_modes_witness :
  (List.length [mkResult [1%N] 7 (Some (9 # 10)) 1 "keyword"; mkResult [2%N] 7 (Some (1 # 2)) 2 "keyword"]
     <= 2)%nat /\
  (forall i r, nth_error [mkResult [1%N] 7 (Some (9 # 10)) 1 "keyword";
                          mkResult [2%N] 7 (Some (1 # 2)) 2 "keyword"] i = Some r ->
               rank r = S i /\ search_type r = "keyword").
Proof.
  apply (C7_search_ranks_and_modes (test_env three_objs true None true true) [1%N] "keyword"
           (Some 2%nat) None ready_service _ ready_service).
  - unfold honours_limit. simpl.
    split; [|split]; intros; injection H as <-; apply firstn_le_length.
  - right; left; reflexivity.
  - reflexivity.
Defined.

(** ** C3 *)

(** C3 (counterexample): when the query embedding fails, [search] in vector
    mode raises [ProviderError], but the similarity operation
    [get_similar_content] catches it and returns an empty list. *)
Lemma C3_similar_returns_empty_on_failure :
  fst (search no_embedding_env [1%N] "vector" (Some 3%nat) None ready_service)
    = inl ProviderError /\
  fst (get_similar_content no_embedding_env [1%N] 3 ready_service) = inr [].
Proof. split; reflexivity. Qed.

(** C3 (amended): [search] re-raises an embedding or index-query failure
    unchanged in each mode, while [get_similar_content] turns any failure
    of its vector-mode search into an empty result list. *)
Theorem C3_search_propagates_similar_absorbs env q top_k alpha w e :
  let k := match top_k with Some k => k | None => DEFAULT_TOP_K end in
  let a := match alpha with Some a => a | None => HYBRID_ALPHA end in
  let d := docs (lazy_state env w) in
  (embed_query env q = inl e ->
     fst (search env q "vector" top_k alpha w) = inl e /\
     fst (search env q "hybrid" top_k alpha w) = inl e) /\
  (forall v, embed_query env q = inr v -> query_near_vector env d v k = inl e ->
     fst (search env q "vector" top_k alpha w) = inl e) /\
  (forall v, embed_query env q = inr v -> query_hybrid env d q v a k = inl e ->
     fst (search env q "hybrid" top_k alpha w) = inl e) /\
  (query_bm25 env d q k = inl e -> fst (search env q "keyword" top_k alpha w) = inl e) /\
  (forall n, fst (search env q "vector" (Some n) None w) = inl e ->
     get_similar_content env q n w = (inr [], snd (search env q "vector" (Some n) None w))).
Proof.
  intros k a d.
  split; [|split; [|split; [|split]]];
    try (rewrite !search_lazy;
         unfold search_body, hybrid_search, vector_search, keyword_search,
           bind, try_except, gets, lift, ret, raise; simpl; fold k a d).
  - intro He. rewrite He. auto.
  - intros v Hv Hq. rewrite Hv, Hq. reflexivity.
  - intros v Hv Hq. rewrite Hv, Hq. reflexivity.
  - intro Hq. rewrite Hq. reflexivity.
  - intros n Hs. unfold get_similar_content, try_except, bind.
    destruct (search env q "vector" (Some n) None w) as [[e'|rs] w']; simpl in *.
    + reflexivity.
    + discriminate.
Qed.

Lemma C3_search_propagates_similar_absorbs_witness :
  get_similar_content no_embedding_env [1%N] 3 ready_service
    = (inr [], snd (search no_embedding_env [1%N] "vector" (Some 3%nat) None ready_service)).
Proof.
  destruct (C3_search_propagates_similar_absorbs no_embedding_env [1%N] None None
              ready_service ProviderError) as [_ [_ [_ [_ H]]]].
  apply H. reflexivity.
Defined.

(** ** C4 *)

(** C4 (counterexample): when the first lazy initialization fails, the
    flag stays unset and the second search enters [initialize_collection]
    again: two entries for two searches. *)
Lemma C4_lazy_init_entered_twice :
  count_init (trace (run_searches no_text_env two_searches fresh_service)) = 2%nat.
Proof. reflexivity. Qed.

(** C4 (amended): a search enters [initialize_collection] exactly when the
    initialized flag is unset, and the flag is set only by a successful
    initialization.  From an initialized service no search enters it (and
    the flag stays set); a sequence of searches whose first lazy
    initialization succeeds enters it exactly once; a failed lazy
    initialization leaves the flag unset, so the next search retries. *)
Theorem C4_lazy_init_gated env calls w :
  (initialized w = true ->
     count_init (trace (run_searches env calls w)) = count_init (trace w) /\
     initialized (run_searches env calls w) = true) /\
  (forall q st k a cs, calls = (q, st, k, a) :: cs -> initialized w = false ->
     fst (initialize_collection env false w) = inr true ->
     count_init (trace (run_searches env calls w)) = S (count_init (trace w)) /\
     initialized (run_searches env calls w) = true) /\
  (forall q st k a, initialized w = false ->
     fst (initialize_collection env false w) = inr false ->
     count_init (trace (snd (search env q st k a w))) = S (count_init (trace w)) /\
     initialized (snd (search env q st k a w)) = false).
Proof.
  split; [|split].
  - intro Hw. destruct (run_searches_initialized env calls w Hw) as [E1 E2].
    rewrite E1. auto.
  - intros q st k a cs -> Hw Hi. simpl.
    destruct (search_state env q st k a w) as [Et Ef].
    unfold lazy_state in Et, Ef. rewrite Hw in Et, Ef.
    pose proof (initialize_collection_flag env w true Hw Hi) as Hf.
    destruct (run_searches_initialized env cs (snd (search env q st k a w))
                (eq_trans Ef Hf)) as [E1 E2].
    split; [|exact E2].
    rewrite E1, Et.
    destruct (initialize_collection_trace env false w) as [t [Etr Ct]].
    rewrite Etr, count_init_app.
    change (count_init (EvInitCollection :: t)) with (S (count_init t)).
    rewrite Ct. lia.
  - intros q st k a Hw Hi.
    destruct (search_state env q st k a w) as [Et Ef].
    unfold lazy_state in Et, Ef. rewrite Hw in Et, Ef.
    pose proof (initialize_collection_flag env w false Hw Hi) as Hf.
    split; [|congruence].
    rewrite Et.
    destruct (initialize_collection_trace env false w) as [t [Etr Ct]].
    rewrite Etr, count_init_app.
    change (count_init (EvInitCollection :: t)) with (S (count_init t)).
    rewrite Ct. lia.
Qed.

Lemma C4_lazy_init_gated_witness :
  count_init (trace (run_searches two_chunk_env two_searches fresh_service)) = 1%nat /\
  initialized (run_searches two_chunk_env two_searches fresh_service) = true.
Proof.
  destruct (C4_lazy_init_gated two_chunk_env two_searches fresh_service) as [_ [H _]].
  apply (H [1%N] "hybrid" None None [([2%N], "keyword", None, None)]); reflexivity.
Defined.

(** ** C9 *)

(** C9 (counterexample): when the statistics query fails its count is
    taken as 0, so initializing a populated collection without
    [force_reset] ingests again: a second document is inserted. *)
Lemma C9_reingests_when_stats_fail :
  let r := initialize_endpoint no_stats_env false populated_service in
  fst r = inr {| success := true; documents_count := Some 0%nat |} /\
  List.length (docs (snd r)) = 2%nat /\
  In (EvInsert 1) (trace (snd r)).
Proof. vm_compute. split; [reflexivity | split; [reflexivity | auto]]. Qed.

(** C9 (amended): when the statistics query succeeds and reports at least
    one document, an initialization without [force_reset] performs no reset
    and no insertion (only the [initialize_collection] entry is traced),
    leaves the documents unchanged, sets the initialized flag, reports
    success and reports the existing document count. *)
Theorem C9_initialize_idempotent env w :
  (aggregate_ok env = true -> docs w <> [] ->
   initialize_endpoint env false w =
     (inr {| success := true; documents_count := Some (List.length (docs w)) |},
      {| initialized := true; docs := docs w; trace := trace w ++ [EvInitCollection] |})) /\
  (forall content embs,
   aggregate_ok env = false -> physics_text env = Some content ->
   embed_batch env (make_chunks content) = inr embs -> batch_insert_ok env = true ->
   initialize_endpoint env false w =
     (inr {| success := true; documents_count := Some 0%nat |},
      {| initialized := true;
         docs := docs w ++ zip_docs 0 (make_chunks content) embs;
         trace := trace w ++ [EvInitCollection;
                              EvInsert (List.length (zip_docs 0 (make_chunks content) embs))] |})).
Proof.
  split.
  - intros Ha Hd. unfold initialize_endpoint, try_except, bind.
    rewrite (initialize_collection_existing env w Ha Hd).
    unfold total_documents, bind, gets, ret. simpl. rewrite Ha. reflexivity.
  - intros content embs Ha Ht He Hb.
    unfold initialize_endpoint, initialize_collection, total_documents, load_physics_text,
      insert_documents, bind, try_except, emit, gets, lift, ret, set_docs, set_initialized.
    rewrite Ha, Ht. cbn -[make_chunks]. rewrite He, Hb. cbn -[make_chunks].
    rewrite <- !app_assoc. reflexivity.
Qed.

Lemma C9_initialize_idempotent_witness :
  initialize_endpoint (test_env [] true (Some [97]%N) true true) false populated_service =
    (inr {| success := true; documents_count := Some 1%nat |},
     {| initialized := true; docs := docs populated_service; trace := [EvInitCollection] |}) /\
  initialize_endpoint no_stats_env false populated_service =
    (inr {| success := true; documents_count := Some 0%nat |},
     {| initialized := true;
        docs := docs populated_service ++ zip_docs 0 (make_chunks [97]%N) [[1]];
        trace := trace populated_service ++
                   [EvInitCollection; EvInsert (List.length (zip_docs 0 (make_chunks [97]%N) [[1]]))] |}).
Proof.
  split.
  - apply (C9_initialize_idempotent (test_env [] true (Some [97]%N) true true) populated_service).
    + reflexivity.
    + discriminate.
  - apply (C9_initialize_idempotent no_stats_env populated_service);
      [reflexivity | reflexivity | vm_compute; reflexivity | reflexivity].
Defined.

(** * Further properties of the code *)

(** ** Splitting and joining *)

Lemma is_prefix_app p s : is_prefix p s = true -> s = p ++ skipn (List.length p) s.
Proof.
  revert s. induction p as [|a p IH]; intros s H; [reflexivity|].
  destruct s as [|b s]; [discriminate|]. simpl in H. apply andb_prop in H as [Hab Hp].
  apply N.eqb_eq in Hab. subst b. simpl. f_equal. apply IH, Hp.
Qed.

Lemma split_fuel_not_nil fuel sep s acc : split_fuel fuel sep s acc <> [].
Proof.
  revert s acc. induction fuel as [|f IH]; intros s acc; simpl; [discriminate|].
  destruct (is_prefix sep s); [discriminate|]. destruct s; [discriminate | apply IH].
Qed.

Lemma py_join_cons sep x rest :
  rest <> [] -> py_join sep (x :: rest) = x ++ sep ++ py_join sep rest.
Proof. destruct rest; [contradiction | reflexivity]. Qed.

Lemma split_fuel_join fuel sep s acc :
  sep <> [] -> (List.length s < fuel)%nat ->
  py_join sep (split_fuel fuel sep s acc) = rev acc ++ s.
Proof.
  intro Hsep. revert s acc. induction fuel as [|f IH]; intros s acc Hlen; [lia|].
  simpl. destruct (is_prefix sep s) eqn:Hp.
  - rewrite py_join_cons by apply split_fuel_not_nil.
    rewrite IH.
    2: { rewrite length_skipn. pose proof (f_equal (@List.length N) (is_prefix_app _ _ Hp)) as E.
         rewrite length_app in E. destruct sep as [|x sep']; [contradiction|]. simpl in *. lia. }
    simpl. rewrite <- (is_prefix_app _ _ Hp). reflexivity.
  - destruct s as [|c s']; [simpl; rewrite app_nil_r; reflexivity|].
    rewrite IH by (simpl in Hlen; lia). simpl. rewrite <- app_assoc. reflexivity.
Qed.

(** ** Stripping *)

Lemma lstrip_suffix l : exists p, l = p ++ lstrip l.
Proof.
  induction l as [|c t [p IH]]; [exists []; reflexivity|]. simpl.
  destruct (py_isspace c); [exists (c :: p); simpl; f_equal; exact IH | exists []; reflexivity].
Qed.

Lemma lstrip_head l : forall c t, lstrip l = c :: t -> py_isspace c = false.
Proof.
  induction l as [|a l IH]; intros c t H; simpl in H; [discriminate|].
  destruct (py_isspace a) eqn:Ea; [eapply IH; exact H|]. injection H as <- _. exact Ea.
Qed.

Lemma lstrip_idem l : lstrip (lstrip l) = lstrip l.
Proof.
  destruct (lstrip l) as [|c t] eqn:E; [reflexivity|].
  simpl. rewrite (lstrip_head _ _ _ E). reflexivity.
Qed.

Lemma py_strip_idem s : py_strip (py_strip s) = py_strip s.
Proof.
  unfold py_strip at 2 3. set (u := lstrip s).
  assert (Hu : forall c t, u = c :: t -> py_isspace c = false) by apply lstrip_head.
  set (v := rev (lstrip (rev u))).
  assert (Hv : lstrip v = v).
  { destruct (lstrip_suffix (rev u)) as [p Hp].
    assert (Euv : u = v ++ rev p).
    { unfold v. rewrite <- (rev_involutive u) at 1. rewrite Hp at 1.
      rewrite rev_app_distr. reflexivity. }
    destruct v as [|c t] eqn:Ev; [reflexivity|]. simpl.
    rewrite (Hu c (t ++ rev p)) by exact Euv. reflexivity. }
  unfold py_strip. rewrite Hv. unfold v. rewrite rev_involutive, lstrip_idem. reflexivity.
Qed.

(** ** Ingestion *)

Lemma zip_docs_nth i ds es n :
  nth_error (zip_docs i ds es) n =
    match nth_error ds n, nth_error es n with
    | Some c, Some e => Some (c, Z.of_nat (i + n), e)
    | _, _ => None
    end.
Proof.
  revert i es n. induction ds as [|d ds IH]; intros i es n; simpl.
  - destruct n; reflexivity.
  - destruct es as [|e es]; destruct n as [|n]; simpl.
    + reflexivity.
    + destruct (nth_error ds n); reflexivity.
    + rewrite Nat.add_0_r. reflexivity.
    + rewrite IH, Nat.add_succ_r. reflexivity.
Qed.

(** ** Search leaves the state alone *)

Lemma unchanged_refl w : unchanged w w.
Proof. reflexivity. Qed.

Lemma unchanged_trans w1 w2 w3 : unchanged w1 w2 -> unchanged w2 w3 -> unchanged w1 w3.
Proof. unfold unchanged. congruence. Qed.

#[export] Hint Resolve unchanged_refl unchanged_trans : stays_db.

Lemma search_body_unchanged env q st top_k alpha :
  stays unchanged (search_body env q st top_k alpha).
Proof.
  unfold search_body, hybrid_search, vector_search, keyword_search.
  cbv beta zeta. stays_split.
Qed.


(** ** X1: splitting the physics text loses nothing *)

(** X1: for a non-empty separator (such as the chunk delimiter ["*****"]),
    joining the pieces of [content.split(sep)] with [sep] gives back
    [content]. *)
Theorem X1_py_split_join sep content :
  sep <> [] -> py_join sep (py_split sep content) = content.
Proof. intro H. unfold py_split. apply split_fuel_join; [exact H | lia]. Qed.

Lemma X1_py_split_join_witness :
  CHUNK_DELIMITER <> [] /\
  py_join CHUNK_DELIMITER (py_split CHUNK_DELIMITER [97; 42; 42; 42; 42; 42; 42; 98]%N)
    = [97; 42; 42; 42; 42; 42; 42; 98]%N.
Proof. split; [discriminate | apply X1_py_split_join; discriminate]. Defined.

(** ** X2: the chunks are stripped and non-empty *)

(** X2: every chunk built by [initialize_collection] is non-empty and is
    left unchanged by [str.strip()]. *)
Theorem X2_make_chunks_stripped content :
  Forall (fun c => c <> [] /\ py_strip c = c) (make_chunks content).
Proof.
  apply Forall_forall. intros c Hc. unfold make_chunks in Hc.
  apply filter_In in Hc as [Hc Hne]. apply in_map_iff in Hc as [t [<- _]].
  split; [intro E; rewrite E in Hne; discriminate | apply py_strip_idem].
Qed.

(** ** X3, X4: what a forced re-ingestion stores *)

(** X3: with [force_reset = true] and every external call succeeding,
    [initialize_collection] replaces the collection by the chunks of the
    physics text: the [i]-th stored document is the [i]-th chunk with
    [doc_id] [i] and the [i]-th embedding, up to the shorter of the two
    lists; it reports success and sets the flag. *)
Theorem X3_force_reset_replaces env w content embs :
  reset_outcome env = ResetDone -> physics_text env = Some content ->
  embed_batch env (make_chunks content) = inr embs -> batch_insert_ok env = true ->
  let chunks := make_chunks content in
  let '(r, w') := initialize_collection env true w in
  r = inr true /\ initialized w' = true /\
  docs w' = zip_docs 0 chunks embs /\
  (forall i, nth_error (docs w') i =
     match nth_error chunks i, nth_error embs i with
     | Some c, Some e => Some (c, Z.of_nat i, e)
     | _, _ => None
     end) /\
  trace w' = trace w ++ [EvInitCollection; EvReset;
                         EvInsert (List.length (zip_docs 0 chunks embs))].
Proof.
  intros Hr Ht He Hb chunks.
  unfold initialize_collection, reset_collection, total_documents, load_physics_text,
    insert_documents, bind, try_except, emit, gets, lift, ret, set_docs, set_initialized.
  rewrite Hr, Ht. cbn -[make_chunks]. rewrite andb_false_r. cbn -[make_chunks].
  rewrite He, Hb. cbn -[make_chunks].
  split; [reflexivity|]. split; [reflexivity|]. split; [reflexivity|]. split.
  - intro i. apply zip_docs_nth.
  - rewrite <- !app_assoc. reflexivity.
Qed.

Lemma X3_force_reset_replaces_witness :
  reset_outcome two_chunk_env = ResetDone /\
  physics_text two_chunk_env = Some [97; 42; 42; 42; 42; 42; 98]%N /\
  embed_batch two_chunk_env (make_chunks [97; 42; 42; 42; 42; 42; 98]%N) = inr [[1]; [1]] /\
  batch_insert_ok two_chunk_env = true /\
  (let chunks := make_chunks [97; 42; 42; 42; 42; 42; 98]%N in
   let '(r, w') := initialize_collection two_chunk_env true populated_service in
   r = inr true /\ initialized w' = true /\
   docs w' = zip_docs 0 chunks [[1]; [1]] /\
   (forall i, nth_error (docs w') i =
      match nth_error chunks i, nth_error [[1]; [1]] i with
      | Some c, Some e => Some (c, Z.of_nat i, e)
      | _, _ => None
      end) /\
   trace w' = trace populated_service ++ [EvInitCollection; EvReset;
                 EvInsert (List.length (zip_docs 0 chunks [[1]; [1]]))]).
Proof.
  split; [reflexivity|]. split; [reflexivity|]. split; [vm_compute; reflexivity|].
  split; [reflexivity|].
  apply X3_force_reset_replaces; [reflexivity | reflexivity | vm_compute; reflexivity | reflexivity].
Defined.

(** X4: when the reset fails, [initialize_collection] with
    [force_reset = true] still ingests and reports success, and no reset is
    traced.  The new chunks (their [doc_id]s restart at 0) are stored after
    what the failed reset left: all the old documents when [exists] or
    [delete] raised, none when [delete] succeeded and [_setup_collection]
    raised. *)
Theorem X4_failed_reset_appends env w content embs :
  reset_outcome env <> ResetDone -> physics_text env = Some content ->
  embed_batch env (make_chunks content) = inr embs -> batch_insert_ok env = true ->
  let '(r, w') := initialize_collection env true w in
  r = inr true /\ initialized w' = true /\
  docs w' = match reset_outcome env with
            | ResetDeleteFails => docs w
            | _ => []
            end ++ zip_docs 0 (make_chunks content) embs /\
  trace w' = trace w ++ [EvInitCollection;
                         EvInsert (List.length (zip_docs 0 (make_chunks content) embs))].
Proof.
  intros Hr Ht He Hb.
  unfold initialize_collection, reset_collection, total_documents, load_physics_text,
    insert_documents, bind, try_except, emit, gets, lift, ret, set_docs, set_initialized.
  destruct (reset_outcome env); [congruence| |];
    rewrite Ht; cbn -[make_chunks]; rewrite andb_false_r; cbn -[make_chunks];
    rewrite He, Hb; cbn -[make_chunks]; rewrite <- !app_assoc; auto.
Qed.

Lemma X4_failed_reset_appends_witness :
  (let env := with_reset_outcome two_chunk_env ResetDeleteFails in
   reset_outcome env <> ResetDone /\
   physics_text env = Some [97; 42; 42; 42; 42; 42; 98]%N /\
   embed_batch env (make_chunks [97; 42; 42; 42; 42; 42; 98]%N) = inr [[1]; [1]] /\
   batch_insert_ok env = true /\
   (let '(r, w') := initialize_collection env true populated_service in
    r = inr true /\ initialized w' = true /\
    docs w' = docs populated_service ++
              zip_docs 0 (make_chunks [97; 42; 42; 42; 42; 42; 98]%N) [[1]; [1]] /\
    trace w' = trace populated_service ++
      [EvInitCollection;
       EvInsert (List.length (zip_docs 0 (make_chunks [97; 42; 42; 42; 42; 42; 98]%N)
                                       [[1]; [1]]))])) /\
  (let env := with_reset_outcome two_chunk_env ResetSetupFails in
   let '(r, w') := initialize_collection env true populated_service in
   r = inr true /\ initialized w' = true /\
   docs w' = [] ++ zip_docs 0 (make_chunks [97; 42; 42; 42; 42; 42; 98]%N) [[1]; [1]] /\
   trace w' = trace populated_service ++
     [EvInitCollection;
      EvInsert (List.length (zip_docs 0 (make_chunks [97; 42; 42; 42; 42; 42; 98]%N)
                                      [[1]; [1]]))]).
Proof.
  split.
  - intro env. split; [discriminate|]. split; [reflexivity|].
    split; [vm_compute; reflexivity|]. split; [reflexivity|].
    apply X4_failed_reset_appends;
      [discriminate | reflexivity | vm_compute; reflexivity | reflexivity].
  - apply (X4_failed_reset_appends (with_reset_outcome two_chunk_env ResetSetupFails)
             populated_service [97; 42; 42; 42; 42; 42; 98]%N [[1]; [1]]);
      [discriminate | reflexivity | vm_compute; reflexivity | reflexivity].
Defined.

(** ** X5: what [/initialize] reports *)

(** X5: the [/initialize] endpoint never raises.  After a successful
    initialization it reports the total number of documents in the
    collection (0 when the statistics query fails); otherwise it reports
    [success = false] with no count.  The state is the one
    [initialize_collection] left. *)
Theorem X5_initialize_endpoint_report env force_reset w :
  let '(r, w1) := initialize_collection env force_reset w in
  initialize_endpoint env force_reset w =
    (inr (match r with
          | inr true => {| success := true;
                           documents_count :=
                             Some (if aggregate_ok env then List.length (docs w1) else 0%nat) |}
          | _ => {| success := false; documents_count := None |}
          end), w1).
Proof.
  unfold initialize_endpoint, try_except, bind.
  destruct (initialize_collection env force_reset w) as [[e|[|]] w1]; reflexivity.
Qed.

(** ** X6, X7, X8: [search] *)

(** X6: a [search_type] other than ["hybrid"], ["vector"] and ["keyword"]
    raises [ValueError], after the lazy initialization has run. *)
Theorem X6_search_invalid_mode env q st top_k alpha w :
  String.eqb st "hybrid" = false -> String.eqb st "vector" = false ->
  String.eqb st "keyword" = false ->
  search env q st top_k alpha w = (inl ValueError, lazy_state env w).
Proof.
  intros H1 H2 H3. rewrite search_lazy.
  unfold search_body, bind, try_except, raise. rewrite H1, H2, H3. reflexivity.
Qed.

Lemma X6_search_invalid_mode_witness :
  String.eqb "semantic" "hybrid" = false /\ String.eqb "semantic" "vector" = false /\
  String.eqb "semantic" "keyword" = false /\
  search two_chunk_env [1%N] "semantic" None None fresh_service
    = (inl ValueError, lazy_state two_chunk_env fresh_service).
Proof.
  split; [reflexivity|]. split; [reflexivity|]. split; [reflexivity|].
  apply X6_search_invalid_mode; reflexivity.
Defined.

(** X7: [search] changes the service state (collection, flag and trace)
    only through its lazy initialization: on an initialized service it
    leaves the state exactly as it was, whatever the outcome. *)
Theorem X7_search_state_is_lazy_state env q st top_k alpha w :
  snd (search env q st top_k alpha w) = lazy_state env w /\
  (initialized w = true -> snd (search env q st top_k alpha w) = w).
Proof.
  assert (E : snd (search env q st top_k alpha w) = lazy_state env w).
  { rewrite search_lazy. apply search_body_unchanged. }
  split; [exact E|]. intro H. rewrite E. unfold lazy_state. rewrite H. reflexivity.
Qed.

(** X8: keyword search never consults the query-embedding provider: its
    outcome and state do not depend on it. *)
Theorem X8_keyword_search_no_embedding env f q top_k alpha w :
  search (with_embed_query env f) q "keyword" top_k alpha w =
  search env q "keyword" top_k alpha w.
Proof. reflexivity. Qed.

(** ** X9, X10: [chat] *)

(** X9: [chat] never raises, and its answer carries an [error] exactly
    when its [search] call raised that error. *)
Theorem X9_chat_total_error_iff env message include_sources st top_k w :
  let k := match top_k with Some k => k | None => DEFAULT_TOP_K end in
  exists a, fst (chat env message include_sources st top_k w) = inr a /\
    (forall e, error a = Some e <-> fst (search env message st (Some k) None w) = inl e).
Proof.
  intro k.
  destruct (search env message st (Some k) None w) as [[e|[|r0 rs]] w1] eqn:Hs.
  - rewrite (chat_search_failed _ _ _ _ _ _ _ _ Hs). eexists; split; [reflexivity|].
    simpl. split; congruence.
  - rewrite (chat_search_empty _ _ _ _ _ _ _ Hs). eexists; split; [reflexivity|].
    simpl. split; discriminate.
  - rewrite (chat_search_nonempty _ _ _ _ _ _ _ _ _ Hs). eexists; split; [reflexivity|].
    destruct include_sources, (score r0); simpl; split; discriminate.
Qed.

Lemma nth_error_firstn_some {A} n (l : list A) i x :
  nth_error (firstn n l) i = Some x -> (i < n)%nat /\ nth_error l i = Some x.
Proof.
  revert l i. induction n as [|n IH]; intros l i H; [destruct i; discriminate|].
  destruct l as [|y l]; [destruct i; discriminate|].
  destruct i as [|i]; simpl in H.
  - split; [lia | exact H].
  - apply IH in H as [H1 H2]. split; [lia | exact H2].
Qed.

(** X10: with sources included, a chat answer lists
    [min(3, len(search_results))] sources when the top score is a number,
    and none when it is [None] (the handler of [generate_with_sources]); the
    [i]-th source carries rank [i + 1], the requested search mode, and the
    score and [doc_id] of the [i]-th search result. *)
Theorem X10_chat_sources_ranked env message st top_k w rs w1 a w2 :
  search env message st (Some (match top_k with Some k => k | None => DEFAULT_TOP_K end))
    None w = (inr rs, w1) ->
  chat env message true st top_k w = (inr a, w2) ->
  List.length (sources a) =
    match rs with
    | r0 :: _ => if is_float (score r0) then Nat.min 3 (List.length rs) else 0%nat
    | [] => 0%nat
    end /\
  forall i s, nth_error (sources a) i = Some s ->
    src_rank s = S i /\ src_search_type s = st /\
    exists r, nth_error rs i = Some r /\ src_score s = score r /\ src_doc_id s = doc_id r.
Proof.
  intros Hs Hc.
  destruct (search_ok_shape _ _ _ _ _ _ _ _ Hs) as [objs [f [Hrs [Hrank _]]]].
  set (n := match rs with
           | r0 :: _ => if is_float (score r0) then 3%nat else 0%nat
           | [] => 0%nat
           end).
  assert (Hsrc : sources a = map mk_source (firstn n rs)).
  { subst n. destruct rs as [|r0 rs'].
    - rewrite (chat_search_empty _ _ _ _ _ _ _ Hs) in Hc. injection Hc as <- _. reflexivity.
    - rewrite (chat_search_nonempty _ _ _ _ _ _ _ _ _ Hs) in Hc. injection Hc as <- _.
      destruct (score r0); reflexivity. }
  rewrite Hsrc. split.
  - rewrite length_map, length_firstn. subst n.
    destruct rs as [|r0 rs']; [reflexivity|]. destruct (is_float (score r0)); reflexivity.
  - intros i s H. rewrite nth_error_map in H.
    destruct (nth_error (firstn n rs) i) as [r|] eqn:Er; [|discriminate].
    injection H as <-. apply nth_error_firstn_some in Er as [_ Er].
    assert (Er' := Er). rewrite Hrs, nth_error_map, enumerate_map_nth in Er'.
    destruct (nth_error objs i) as [o|]; [|discriminate]. injection Er' as Eo. subst r.
    simpl. rewrite Hrank. split; [reflexivity|]. split; [reflexivity|]. eauto.
Qed.

Lemma X10_chat_sources_ranked_witness :
  let env := keyword_env (3 # 4) true in
  search env [1%N] "keyword" (Some DEFAULT_TOP_K) None ready_service
    = (inr [mkResult [1%N] 7 (Some (3 # 4)) 1 "keyword"], ready_service) /\
  chat env [1%N] true "keyword" None ready_service
    = (inr {| response := [1%N];
              sources := [mk_source (mkResult [1%N] 7 (Some (3 # 4)) 1 "keyword")];
              confidence := Some (estimate_confidence (3 # 4)); error := None |},
       mkSvc true [] [EvGenerate]) /\
  (List.length [mk_source (mkResult [1%N] 7 (Some (3 # 4)) 1 "keyword")]
     = Nat.min 3 (List.length [mkResult [1%N] 7 (Some (3 # 4)) 1 "keyword"]) /\
   forall i s, nth_error
       (sources {| response := [1%N];
                   sources := [mk_source (mkResult [1%N] 7 (Some (3 # 4)) 1 "keyword")];
                   confidence := Some (estimate_confidence (3 # 4)); error := None |}) i = Some s ->
     src_rank s = S i /\ src_search_type s = "keyword" /\
     exists r, nth_error [mkResult [1%N] 7 (Some (3 # 4)) 1 "keyword"] i = Some r /\
       src_score s = score r /\ src_doc_id s = doc_id r).
Proof.
  intro env.
  assert (Hs : search env [1%N] "keyword" (Some DEFAULT_TOP_K) None ready_service
    = (inr [mkResult [1%N] 7 (Some (3 # 4)) 1 "keyword"], ready_service)) by reflexivity.
  assert (Hc : chat env [1%N] true "keyword" None ready_service
    = (inr {| response := [1%N];
              sources := [mk_source (mkResult [1%N] 7 (Some (3 # 4)) 1 "keyword")];
              confidence := Some (estimate_confidence (3 # 4)); error := None |},
       mkSvc true [] [EvGenerate])) by reflexivity.
  split; [exact Hs|]. split; [exact Hc|].
  exact (X10_chat_sources_ranked env [1%N] "keyword" None ready_service _ _ _ _ Hs Hc).
Defined.

(** ** The dict behind [/chat] *)

Lemma chat_dict_search_failed env message include_sources st top_k w w1 e :
  search env message st (Some (match top_k with Some k => k | None => DEFAULT_TOP_K end))
    None w = (inl e, w1) ->
  chat_dict env message include_sources st top_k w =
    (inr ({| response := APOLOGY_TEXT; sources := []; confidence := Some 0; error := Some e |},
          ["response"; "sources"; "confidence"; "total_time"; "search_type"; "error"]), w1).
Proof. intro H. unfold chat_dict, try_except, bind. rewrite H. reflexivity. Qed.

Lemma chat_dict_search_empty env message include_sources st top_k w w1 :
  search env message st (Some (match top_k with Some k => k | None => DEFAULT_TOP_K end))
    None w = (inr [], w1) ->
  chat_dict env message include_sources st top_k w =
    (inr (no_info_answer, ["response"; "sources"; "confidence"; "total_time"; "search_type"]),
     w1).
Proof. intro H. unfold chat_dict, try_except, bind. rewrite H. reflexivity. Qed.

Lemma chat_dict_search_nonempty env message include_sources st top_k w w1 r0 rs :
  search env message st (Some (match top_k with Some k => k | None => DEFAULT_TOP_K end))
    None w = (inr (r0 :: rs), w1) ->
  chat_dict env message include_sources st top_k w =
    (match fst (chat env message include_sources st top_k w) with
     | inr a => inr (a, ["response"; "sources"; "confidence"; "total_time";
                        "search_results_count"; "search_type"; "message"])
     | inl e => inl e
     end, snd (chat env message include_sources st top_k w)).
Proof.
  intro H. rewrite (chat_search_nonempty _ _ _ _ _ _ _ _ _ H).
  unfold chat_dict, try_except, bind. rewrite H.
  destruct include_sources; simpl;
    unfold generate_with_sources, generate_response, try_except, bind, emit, ret, lift;
    simpl; destruct (generate_content env message (content r0));
    destruct (score r0); reflexivity.
Qed.

(** [chat_dict] returns the answer of [chat], with the same state. *)
Lemma chat_dict_chat env message include_sources st top_k w :
  chat env message include_sources st top_k w =
    (match fst (chat_dict env message include_sources st top_k w) with
     | inr p => inr (fst p)
     | inl e => inl e
     end, snd (chat_dict env message include_sources st top_k w)).
Proof.
  destruct (search env message st (Some (match top_k with Some k => k | None => DEFAULT_TOP_K end))
              None w) as [[e|[|r0 rs]] w1] eqn:Hs.
  - rewrite (chat_dict_search_failed _ _ _ _ _ _ _ _ Hs), (chat_search_failed _ _ _ _ _ _ _ _ Hs).
    reflexivity.
  - rewrite (chat_dict_search_empty _ _ _ _ _ _ _ Hs), (chat_search_empty _ _ _ _ _ _ _ Hs).
    reflexivity.
  - rewrite (chat_dict_search_nonempty _ _ _ _ _ _ _ _ _ Hs).
    rewrite (chat_search_nonempty _ _ _ _ _ _ _ _ _ Hs). reflexivity.
Qed.

(** ** X11, X12: the [/chat] endpoint *)

(** X11: the [/chat] endpoint answers HTTP 500 whenever retrieval raises or
    returns no result: the fallback dicts of [chat] lack the required
    [search_results_count] and [message] fields of [ChatResponse]. *)
Theorem X11_chat_endpoint_fallbacks_rejected env message include_sources st top_k w r w1 :
  search env message st (Some (match top_k with Some k => k | None => DEFAULT_TOP_K end))
    None w = (r, w1) ->
  (exists e, r = inl e) \/ r = inr [] ->
  chat_endpoint env message include_sources st top_k w = (inl HTTPException, w1).
Proof.
  intros Hs [[e ->] | ->].
  - unfold chat_endpoint, try_except, bind at 1.
    rewrite (chat_dict_search_failed _ _ _ _ _ _ _ _ Hs). reflexivity.
  - unfold chat_endpoint, try_except, bind at 1.
    rewrite (chat_dict_search_empty _ _ _ _ _ _ _ Hs). reflexivity.
Qed.

Lemma X11_chat_endpoint_fallbacks_rejected_witness :
  search no_embedding_env [1%N] "hybrid" (Some DEFAULT_TOP_K) None ready_service
    = (inl ProviderError, ready_service) /\
  ((exists e, @inl err (list result) ProviderError = inl e) \/
   @inl err (list result) ProviderError = inr []) /\
  chat_endpoint no_embedding_env [1%N] true "hybrid" None ready_service
    = (inl HTTPException, ready_service).
Proof.
  assert (Hs : search no_embedding_env [1%N] "hybrid" (Some DEFAULT_TOP_K) None ready_service
                 = (inl ProviderError, ready_service)) by reflexivity.
  assert (Hr : (exists e, @inl err (list result) ProviderError = inl e) \/
               @inl err (list result) ProviderError = inr []) by (left; eexists; reflexivity).
  split; [exact Hs|]. split; [exact Hr|].
  exact (X11_chat_endpoint_fallbacks_rejected no_embedding_env [1%N] true "hybrid" None
           ready_service _ _ Hs Hr).
Defined.

Lemma required_keys_present :
  forallb (fun f => existsb (String.eqb f)
             ["response"; "sources"; "confidence"; "total_time";
              "search_results_count"; "search_type"; "message"]) chat_response_required = true.
Proof. reflexivity. Qed.

Lemma forallb_src_score l :
  forallb (fun si => is_float (src_score si)) (map mk_source l) =
  forallb (fun r => is_float (score r)) l.
Proof. induction l as [|r l IH]; simpl; [reflexivity|]. rewrite IH. reflexivity. Qed.

(** X12: when retrieval returns results, the [/chat] endpoint returns the
    answer of [chat] or answers HTTP 500.  With sources included it
    returns the answer unless the top score is a number and one of the
    first three results has score [None] ([SourceInfo.score] is a
    [float]); without sources it returns the answer exactly when the raw
    top score is a number within [0, 1]. *)
Theorem X12_chat_endpoint_nonempty env message include_sources st top_k w r0 rs w1 :
  search env message st (Some (match top_k with Some k => k | None => DEFAULT_TOP_K end))
    None w = (inr (r0 :: rs), w1) ->
  fst (chat_endpoint env message include_sources st top_k w) =
    if (if include_sources
        then match score r0 with
             | Some _ => forallb (fun r => is_float (score r)) (firstn 3 (r0 :: rs))
             | None => true
             end
        else confidence_valid (score r0))
    then fst (chat env message include_sources st top_k w)
    else inl HTTPException.
Proof.
  intro Hs. unfold chat_endpoint, try_except, bind at 1.
  rewrite (chat_dict_search_nonempty _ _ _ _ _ _ _ _ _ Hs).
  rewrite (chat_search_nonempty _ _ _ _ _ _ _ _ _ Hs). cbn [fst snd].
  unfold chat_response_valid. rewrite required_keys_present.
  destruct include_sources; destruct (score r0) as [s|] eqn:Hr; cbn [andb].
  - cbn [confidence sources confidence_valid option_map].
    destruct (estimate_confidence_bounds s) as [L U].
    apply Qle_bool_iff in L, U. rewrite L, U. cbn [andb].
    rewrite forallb_src_score.
    destruct (forallb (fun r => is_float (score r)) (firstn 3 (r0 :: rs))); reflexivity.
  - reflexivity.
  - cbn [confidence sources forallb]. rewrite andb_true_r.
    destruct (confidence_valid (Some s)); reflexivity.
  - reflexivity.
Qed.

Lemma X12_chat_endpoint_nonempty_witness :
  search (keyword_env (5 # 2) true) [1%N] "keyword" (Some DEFAULT_TOP_K) None ready_service
    = (inr [mkResult [1%N] 7 (Some (5 # 2)) 1 "keyword"], ready_service) /\
  fst (chat_endpoint (keyword_env (5 # 2) true) [1%N] false "keyword" None ready_service) =
    if (if false
        then match score (mkResult [1%N] 7 (Some (5 # 2)) 1 "keyword") with
             | Some _ => forallb (fun r => is_float (score r))
                           (firstn 3 [mkResult [1%N] 7 (Some (5 # 2)) 1 "keyword"])
             | None => true
             end
        else confidence_valid (score (mkResult [1%N] 7 (Some (5 # 2)) 1 "keyword")))
    then fst (chat (keyword_env (5 # 2) true) [1%N] false "keyword" None ready_service)
    else inl HTTPException.
Proof.
  assert (Hs : search (keyword_env (5 # 2) true) [1%N] "keyword" (Some DEFAULT_TOP_K) None
                 ready_service = (inr [mkResult [1%N] 7 (Some (5 # 2)) 1 "keyword"], ready_service))
    by reflexivity.
  split; [exact Hs|].
  exact (X12_chat_endpoint_nonempty (keyword_env (5 # 2) true) [1%N] false "keyword" None
           ready_service _ _ _ Hs).
Defined.

(** ** X13, X14, X15: concept explanations *)

(** X13: [generate_multi_context_response] only ever uses the first three
    contexts; with no context it answers the fixed text without calling the
    provider; otherwise it calls the provider once on the contexts joined by
    ["\n\n---\n\n"] and replaces a provider failure by the fixed error
    text. *)
Theorem X13_multi_context_response gm q cs w :
  generate_multi_context_response gm q cs w =
    generate_multi_context_response gm q (firstn 3 cs) w /\
  generate_multi_context_response gm q cs w =
    match cs with
    | [] => (inr NO_CONTEXT_TEXT, w)
    | _ :: _ =>
        (inr (match gm q (py_join CONTEXT_SEPARATOR (firstn 3 cs)) with
              | Some t => t
              | None => MULTI_CONTEXT_ERROR_TEXT
              end),
         {| initialized := initialized w; docs := docs w; trace := trace w ++ [EvGenerate] |})
    end.
Proof.
  split.
  - destruct cs as [|c1 [|c2 [|c3 cs]]]; reflexivity.
  - destruct cs as [|c1 cs]; [reflexivity|].
    unfold generate_multi_context_response, bind, emit.
    destruct (gm q (py_join CONTEXT_SEPARATOR (firstn 3 (c1 :: cs)))); reflexivity.
Qed.

(** X14: [explain_concept] never raises.  It runs a hybrid search with
    [top_k] defaulting to 3; a failed search gives the fixed
    ["'{concept}' ... সমস্যা হয়েছে।"] explanation with the error attached,
    an empty one the fixed ["'{concept}' ... পাওয়া যায়নি।"] explanation,
    and otherwise the first two results are the sources and their contents,
    joined by the separator, are the context sent to the provider. *)
Theorem X14_explain_concept_outcomes env gm concept top_k w :
  let k := match top_k with Some k => k | None => 3%nat end in
  fst (explain_concept env gm concept top_k w) =
    inr (match fst (search env concept "hybrid" (Some k) None w) with
         | inl e => {| explanation_text := quoted concept CONCEPT_ERROR_SUFFIX;
                       expl_sources := []; expl_concept := None; expl_error := Some e |}
         | inr [] => {| explanation_text := quoted concept CONCEPT_NOT_FOUND_SUFFIX;
                        expl_sources := []; expl_concept := None; expl_error := None |}
         | inr rs =>
             {| explanation_text :=
                  match gm concept (py_join CONTEXT_SEPARATOR (map content (firstn 2 rs))) with
                  | Some t => t
                  | None => MULTI_CONTEXT_ERROR_TEXT
                  end;
                expl_sources := firstn 2 rs; expl_concept := Some concept;
                expl_error := None |}
         end).
Proof.
  intro k. unfold explain_concept, try_except, bind at 1. fold k.
  destruct (search env concept "hybrid" (Some k) None w) as [[e|[|r0 rs]] w1];
    [reflexivity | reflexivity |].
  unfold bind. destruct rs as [|r1 rs]; simpl;
    match goal with |- context [gm concept ?c] => destruct (gm concept c) end; reflexivity.
Qed.

(** X15: the [/explain] endpoint answers HTTP 500 exactly when the hybrid
    search raises or finds nothing (the fallback dicts lack the required
    [concept] field of [ConceptResponse]), or when one of the first two
    results, which become its sources, has score [None] ([SearchResult]'s
    [score] is a [float]); otherwise it returns the explanation of
    [explain_concept]. *)
Theorem X15_explain_endpoint env gm concept top_k w :
  let k := match top_k with Some k => k | None => 3%nat end in
  explain_endpoint env gm concept top_k w =
    match fst (search env concept "hybrid" (Some k) None w) with
    | inr (r0 :: rs) =>
        if forallb (fun r => is_float (score r)) (firstn 2 (r0 :: rs))
        then explain_concept env gm concept top_k w
        else (inl HTTPException, snd (explain_concept env gm concept top_k w))
    | _ => (inl HTTPException, snd (explain_concept env gm concept top_k w))
    end.
Proof.
  intro k.
  destruct (search env concept "hybrid" (Some k) None w) as [[e|[|r0 rs]] w1] eqn:Hs;
    cbn [fst]; unfold explain_endpoint, explain_concept, try_except, bind; fold k;
    rewrite Hs; [reflexivity | reflexivity |].
  destruct rs as [|r1 rs]; simpl;
    match goal with |- context [gm concept ?c] => destruct (gm concept c) end;
    cbv [emit ret bind]; simpl;
    repeat match goal with |- context [score ?r] => destruct (score r) end;
    reflexivity.
Qed.

(** ** X16: [validate_response] *)

Lemma is_prefix_in p s x : is_prefix p s = true -> In x p -> In x s.
Proof.
  revert s. induction p as [|a p IH]; intros s H Hx; [destruct Hx|].
  destruct s as [|b s]; [discriminate|]. simpl in H. apply andb_prop in H as [Hab Hp].
  apply N.eqb_eq in Hab. subst b. destruct Hx as [<- | Hx]; [left; reflexivity|].
  right. exact (IH s Hp Hx).
Qed.

Lemma py_contains_in p s x : py_contains p s = true -> In x p -> In x s.
Proof.
  induction s as [|c s IH]; intros H Hx; simpl in H.
  - rewrite orb_false_r in H. exact (is_prefix_in _ _ _ H Hx).
  - apply orb_prop in H as [H | H]; [exact (is_prefix_in _ _ _ H Hx) | right; exact (IH H Hx)].
Qed.

Lemma ascii_lower_no_I s : ~ In 73%N (ascii_lower s).
Proof.
  unfold ascii_lower. intro H. apply in_map_iff in H as [c [Hc _]].
  destruct ((65 <=? c) && (c <=? 90))%N eqn:E.
  - apply andb_prop in E as [E1 E2]. apply N.leb_le in E1, E2. lia.
  - subst c. discriminate E.
Qed.

(** X16: the three error patterns starting with an upper-case ['I'] are
    searched for in the lower-cased response, where [str.lower()] never
    leaves an ['I']: they never reject anything.  [validate_response] accepts
    exactly the non-empty responses whose stripped length is at least 10
    and whose lower-cased form contains neither ["error"] nor ["failed"]. *)
Theorem X16_validate_response_dead_patterns (lower : pystr -> pystr) response :
  (forall s, ~ In 73%N (lower s)) ->
  validate_response lower response =
    is_nonempty response && (10 <=? List.length (py_strip response))%nat
    && negb (py_contains PAT_ERROR (lower response))
    && negb (py_contains PAT_FAILED (lower response)).
Proof.
  intro H.
  assert (Dead : forall p, In 73%N p -> py_contains p (lower response) = false).
  { intros p Hp. destruct (py_contains p (lower response)) eqn:E; [|reflexivity].
    exfalso. exact (H response (py_contains_in _ _ _ E Hp)). }
  unfold validate_response, error_patterns. cbn [forallb].
  rewrite (Dead PAT_I_CANNOT), (Dead PAT_I_M_SORRY), (Dead PAT_I_DONT_KNOW)
    by (left; reflexivity).
  cbn [negb andb]. destruct (is_nonempty response); cbn [negb orb andb]; [|reflexivity].
  destruct (Nat.ltb_spec (List.length (py_strip response)) 10);
    destruct (Nat.leb_spec 10 (List.length (py_strip response))); try lia;
    cbn [andb orb negb]; destruct (py_contains PAT_ERROR (lower response));
    destruct (py_contains PAT_FAILED (lower response)); reflexivity.
Qed.

Lemma X16_validate_response_dead_patterns_witness :
  (forall s, ~ In 73%N (ascii_lower s)) /\
  validate_response ascii_lower PAT_I_DONT_KNOW =
    is_nonempty PAT_I_DONT_KNOW && (10 <=? List.length (py_strip PAT_I_DONT_KNOW))%nat
    && negb (py_contains PAT_ERROR (ascii_lower PAT_I_DONT_KNOW))
    && negb (py_contains PAT_FAILED (ascii_lower PAT_I_DONT_KNOW)).
Proof.
  split; [exact ascii_lower_no_I|].
  exact (X16_validate_response_dead_patterns ascii_lower PAT_I_DONT_KNOW ascii_lower_no_I).
Defined.

(** ** X17, X18: health *)

(** X17: [health_check] never raises.  The overall status is ["degraded"]
    exactly when the test embedding raises, and ["healthy"] otherwise: the
    index is always reported healthy (the statistics query swallows its
    errors and counts 0), and the generation probe is reported unhealthy
    only when the provider returns an empty text (a provider failure is
    replaced by a non-empty fallback text).  An empty test embedding is
    reported unhealthy without degrading the overall status. *)
Theorem X17_health_check_status env gs w :
  exists h, fst (health_check env gs w) = inr h /\
    (overall_status h = "degraded" <-> exists e, embed_query env TEST_TEXT = inl e) /\
    (overall_status h = "healthy" <-> exists v, embed_query env TEST_TEXT = inr v) /\
    (embedding_status h = "healthy" <->
       exists v, embed_query env TEST_TEXT = inr v /\ v <> []) /\
    weaviate_status h = "healthy" /\
    document_count h = Some (if aggregate_ok env then List.length (docs w) else 0%nat) /\
    (generation_status h = "unhealthy" <-> gs TEST_TEXT TEST_CONTEXT = Some []).
Proof.
  unfold health_check, generate_simple_response, total_documents,
    try_except, bind, lift, ret, gets, emit.
  destruct (embed_query env TEST_TEXT) as [e|[|x v]];
    destruct (gs TEST_TEXT TEST_CONTEXT) as [[|c t]|]; cbn;
    eexists; (split; [reflexivity|]);
    repeat split; intros; repeat match goal with H : exists _, _ |- _ => destruct H end;
    repeat match goal with H : _ /\ _ |- _ => destruct H end;
    try discriminate; try congruence; eauto; try (eexists; split; [reflexivity | discriminate]).
Qed.

(** X18: the [/health] endpoint answers HTTP 503 exactly when the test
    embedding raises; otherwise it returns the result of [health_check]. *)
Theorem X18_health_endpoint env gs w :
  fst (health_endpoint env gs w) =
    match embed_query env TEST_TEXT with
    | inl _ => inl HTTPException
    | inr _ => fst (health_check env gs w)
    end.
Proof.
  unfold health_endpoint, health_check, generate_simple_response, total_documents,
    try_except, bind, lift, ret, gets, emit, raise.
  destruct (embed_query env TEST_TEXT) as [e|[|x v]];
    destruct (gs TEST_TEXT TEST_CONTEXT) as [[|c t]|]; reflexivity.
Qed.

